(** * frappe/bencher.py: bench layout resolution

    A shallow embedding of [frappe/bencher.py]: the component registry
    ([Apps], [Apps.App], [Apps.App.Module]), the presence check
    ([FrappeComponent.__bool__]), the tenant registry ([Sites]) with its
    scoping state machine, and the merged configuration of a tenant
    ([Sites.Site.config]).

    Python objects are records of their instance attributes; a method is a
    function in the state-and-exception monad [Py] over the part of the
    world it reads and writes (file system, thread-local site name, the
    module global [_current_bench], the heap of dict objects).  An
    exception leaves the state as it was at the point of the raise, as in
    Python. *)

From Stdlib Require Import Ascii.
From stdpp Require Import gmap strings list fin_maps.

Open Scope string_scope.
Open Scope list_scope.

(** ** Exceptions and the [Py] monad *)

Inductive exn : Type :=
  | AttributeError
  | NameError
  | KeyError
  | FileNotFoundError
  | NotADirectoryError
  | IsADirectoryError
  | FileExistsError
  | BenchNotScopedError      (* class BenchNotScopedError(NotImplementedError) *)
  | BenchSiteNotLoadedError. (* class BenchSiteNotLoadedError(ValueError) *)

#[global] Instance exn_eq_dec : EqDecision exn.
Proof. solve_decision. Defined.

Inductive outcome (A : Type) : Type :=
  | Ret (a : A)
  | Raise (e : exn).
Arguments Ret {A} a.
Arguments Raise {A} e.

Module Py.

Definition t (St A : Type) : Type := St -> outcome A * St.

Definition ret {St A} (a : A) : t St A := fun s => (Ret a, s).

Definition raise {St A} (e : exn) : t St A := fun s => (Raise e, s).

Definition bind {St A B} (c : t St A) (k : A -> t St B) : t St B :=
  fun s =>
    match c s with
    | (Ret a, s') => k a s'
    | (Raise e, s') => (Raise e, s')
    end.

Definition get {St} : t St St := fun s => (Ret s, s).

Definition modify {St} (f : St -> St) : t St unit := fun s => (Ret tt, f s).

(** A pure, possibly failing, computation run inside the monad. *)
Definition lift {St A} (o : outcome A) : t St A := fun s => (o, s).

(** [try: c except e: h] *)
Definition catch {St A} (c : t St A) (e : exn) (h : t St A) : t St A :=
  fun s =>
    match c s with
    | (Raise e', s') => if decide (e' = e) then h s' else (Raise e', s')
    | r => r
    end.

End Py.

Declare Scope py_scope.
Delimit Scope py_scope with py.
Notation "x <- c ;; k" := (Py.bind c (fun x => k))
  (at level 100, c at next level, right associativity) : py_scope.
Notation "c ;;; k" := (Py.bind c (fun _ => k))
  (at level 100, right associativity) : py_scope.
Open Scope py_scope.

(** ** The file system ([pathlib.Path] over a directory tree)

    A path is the list of its components below the file-system root; the
    names joined to a path by the code ([d.name], [site_name], the fixed
    file names) are single components. *)

Module FS.

#[warnings="-register-all"] Inductive node : Type :=
  | File (text : string)
  | Dir (entries : gmap string node).

Definition path : Type := list string.

(** [Path.joinpath(c)] *)
Definition joinpath (p : path) (c : string) : path := p ++ [c].

(** [Path.name]: the final component. *)
Definition name (p : path) : string := default "" (last p).

(** The node a path leads to; [ENOENT] and [ENOTDIR] as the OS reports
    them. *)
Fixpoint stat (n : node) (p : path) : outcome node :=
  match p with
  | [] => Ret n
  | c :: p' =>
      match n with
      | File _ => Raise NotADirectoryError
      | Dir m =>
          match m !! c with
          | Some child => stat child p'
          | None => Raise FileNotFoundError
          end
      end
  end.

(** [Path.is_dir()]: false on any error. *)
Definition is_dir (root : node) (p : path) : bool :=
  match stat root p with
  | Ret (Dir _) => true
  | _ => false
  end.

(** [Path.exists()]: true for a file or a directory, false on any error. *)
Definition exists_ (root : node) (p : path) : bool :=
  match stat root p with
  | Ret _ => true
  | Raise _ => false
  end.

(** [Path.read_text()] *)
Definition read_text (root : node) (p : path) : outcome string :=
  match stat root p with
  | Ret (File text) => Ret text
  | Ret (Dir _) => Raise IsADirectoryError
  | Raise e => Raise e
  end.

(** [Path.iterdir()]: the children of a directory, as paths, in the
    (arbitrary but fixed) order the directory lists them. *)
Definition iterdir (root : node) (p : path) : outcome (list path) :=
  match stat root p with
  | Ret (Dir m) => Ret (joinpath p <$> (map_to_list m).*1)
  | Ret (File _) => Raise NotADirectoryError
  | Raise e => Raise e
  end.

(** [Path.mkdir(parents=True, exist_ok=True)]: the tree after the call.
    An existing directory is left as it is, missing ancestors are
    created, a file on the way is an error (and then nothing was
    created). *)
Fixpoint mkdir (n : node) (p : path) {struct p} : outcome node :=
  match n with
  | File _ =>
      match p with
      | [] => Raise FileExistsError
      | _ :: _ => Raise NotADirectoryError
      end
  | Dir m =>
      match p with
      | [] => Ret n
      | c :: p' =>
          match mkdir (default (Dir ∅) (m !! c)) p' with
          | Ret child => Ret (Dir (<[c := child]> m))
          | Raise e => Raise e
          end
      end
  end.

End FS.

(** ** Strings: [x in s] and [str.title()] *)

(** [needle in hay] on [str]: substring test. *)
Fixpoint contains (needle hay : string) : bool :=
  String.prefix needle hay
  || match hay with
     | EmptyString => false
     | String _ hay' => contains needle hay'
     end.

Definition is_upper (c : ascii) : bool :=
  let n := nat_of_ascii c in (65 <=? n)%nat && (n <=? 90)%nat.
Definition is_lower (c : ascii) : bool :=
  let n := nat_of_ascii c in (97 <=? n)%nat && (n <=? 122)%nat.
Definition is_cased (c : ascii) : bool := is_upper c || is_lower c.
Definition to_upper (c : ascii) : ascii :=
  if is_lower c then ascii_of_nat (nat_of_ascii c - 32) else c.
Definition to_lower (c : ascii) : ascii :=
  if is_upper c then ascii_of_nat (nat_of_ascii c + 32) else c.

(** [str.title()] on ASCII text: a letter that follows a letter is
    lower-cased, any other letter is upper-cased.  A string is its sequence
    of bytes; for a character outside ASCII Python asks the Unicode
    database whether it is cased, which this function does not do, so it is
    [str.title()] on the strings of [is_ascii] only, and the statements
    about title-cased names are made for those. *)
Fixpoint title_from (previous_is_cased : bool) (s : string) : string :=
  match s with
  | EmptyString => EmptyString
  | String c s' =>
      String (if previous_is_cased then to_lower c else to_upper c)
             (title_from (is_cased c) s')
  end.
Definition title (s : string) : string := title_from false s.

(** [str.isascii()] *)
Fixpoint is_ascii (s : string) : bool :=
  match s with
  | EmptyString => true
  | String c s' => (nat_of_ascii c <? 128)%nat && is_ascii s'
  end.

(** ** Components: [FrappeComponent], [Apps], [Apps.App], [Apps.App.Module] *)

(** Dict objects live on a heap and are handed out by reference. *)
Definition loc : Type := nat.

(** class [Apps.App]: its instance attributes.  [self.__modules], written
    inside the class body, is the attribute [_App__modules]. *)
Record App : Type := {
  App_name : string;
  App_path : FS.path;
  App_python_path : FS.path;
  _App__modules : option loc;
}.

(** class [Apps.App.Module].  Of the back-reference [app] only
    [app.python_path] is ever read. *)
Record AppModule : Type := {
  Module_name : string;
  Module_path : FS.path;
  Module_python_path : FS.path;
  Module_app_python_path : FS.path;
}.

(** class [Apps]; [self.__apps] is the attribute [_Apps__apps]. *)
Record Apps : Type := {
  Apps_path : FS.path;
  _Apps__apps : option loc;
}.

(** class [Bench], as far as the presence check reads it:
    [_current_bench.sites.path]. *)
Record Bench : Type := {
  Bench_path : FS.path;
  Bench_sites_path : FS.path;
}.

(** What the component code reads and writes. *)
Record World : Type := {
  fs : FS.node;
  _current_bench : option Bench;            (* module global, unset at import *)
  app_dicts : gmap loc (gmap string App);      (* dict[str, App] objects *)
  module_dicts : gmap loc (gmap string AppModule);
  next_loc : loc;
  scans : nat;                              (* directory scans performed *)
  notices : list string;                    (* deprecation_warning calls *)
}.

Definition is_dir (p : FS.path) : Py.t World bool :=
  fun w => (Ret (FS.is_dir (fs w) p), w).

Definition exists_ (p : FS.path) : Py.t World bool :=
  fun w => (Ret (FS.exists_ (fs w) p), w).

Definition read_text (p : FS.path) : Py.t World string :=
  fun w => (FS.read_text (fs w) p, w).

Definition iterdir (p : FS.path) : Py.t World (list FS.path) :=
  fun w =>
    (FS.iterdir (fs w) p,
     {| fs := fs w; _current_bench := _current_bench w;
        app_dicts := app_dicts w; module_dicts := module_dicts w;
        next_loc := next_loc w; scans := S (scans w);
        notices := notices w |}).

(** [deprecation_warning(..., msg)]: the notice is recorded by the name it
    is about. *)
Definition deprecation_warning (about : string) : Py.t World unit :=
  fun w =>
    (Ret tt,
     {| fs := fs w; _current_bench := _current_bench w;
        app_dicts := app_dicts w; module_dicts := module_dicts w;
        next_loc := next_loc w; scans := scans w;
        notices := notices w ++ [about] |}).

(** Reading the global [_current_bench]. *)
Definition current_bench : Py.t World Bench :=
  fun w =>
    match _current_bench w with
    | Some b => (Ret b, w)
    | None => (Raise NameError, w)
    end.

(** A new [dict[str, App]] object. *)
Definition new_app_dict (d : gmap string App) : Py.t World loc :=
  fun w =>
    (Ret (next_loc w),
     {| fs := fs w; _current_bench := _current_bench w;
        app_dicts := <[next_loc w := d]> (app_dicts w);
        module_dicts := module_dicts w;
        next_loc := S (next_loc w); scans := scans w;
        notices := notices w |}).

(** A new [dict[str, Module]] object. *)
Definition new_module_dict (d : gmap string AppModule) : Py.t World loc :=
  fun w =>
    (Ret (next_loc w),
     {| fs := fs w; _current_bench := _current_bench w;
        app_dicts := app_dicts w;
        module_dicts := <[next_loc w := d]> (module_dicts w);
        next_loc := S (next_loc w); scans := scans w;
        notices := notices w |}).

(** *** [FrappeComponent] *)

Inductive FrappeComponent : Type :=
  | IsApp (a : App)           (* isinstance(self, Apps.App) *)
  | IsModule (m : AppModule). (* isinstance(self, Apps.App.Module) *)

Definition python_path (self : FrappeComponent) : FS.path :=
  match self with
  | IsApp a => App_python_path a
  | IsModule m => Module_python_path m
  end.

Definition _is_frappe_component (self : FrappeComponent) : Py.t World bool :=
  d <- is_dir (python_path self);;
  if d then exists_ (FS.joinpath (python_path self) ".frappe") else Py.ret false.

Definition _is_app_installed (self : App) : Py.t World bool :=
  bench <- current_bench;;
  text <- read_text (FS.joinpath (Bench_sites_path bench) "apps.txt");;
  let res := contains (App_name self) text in
  if res then (deprecation_warning (App_name self);;; Py.ret res)
  else Py.ret false.

Definition _is_module_registered (self : AppModule) : Py.t World bool :=
  text <- read_text (FS.joinpath (Module_app_python_path self) "modules.txt");;
  let res := contains (title (Module_name self)) text in
  if res then (deprecation_warning (title (Module_name self));;; Py.ret res)
  else Py.ret false.

Definition __bool__ (self : FrappeComponent) : Py.t World bool :=
  marked <- _is_frappe_component self;;
  if marked then Py.ret true
  else
    match self with
    | IsApp a => _is_app_installed a
    | IsModule m => _is_module_registered m
    end.

(** *** [Apps.App.Module] and [Apps.App] *)

Definition Module_init (name : string) (path : FS.path) (app : App) : AppModule :=
  {| Module_name := name; Module_path := path; Module_python_path := path;
     Module_app_python_path := App_python_path app |}.

Definition App_init (name : string) (path : FS.path) : App :=
  {| App_name := name; App_path := path;
     App_python_path := FS.joinpath path name; _App__modules := None |}.

(** The names in an [App] instance's [__dict__]; the class itself defines
    no attribute of a name that [hasattr] is asked for. *)
Definition App_dict_keys (self : App) : list string :=
  ["name"; "path"; "python_path"]
  ++ match _App__modules self with
     | Some _ => ["_App__modules"]
     | None => []
     end.

Definition App_hasattr (self : App) (attr : string) : bool :=
  bool_decide (attr ∈ App_dict_keys self).

(** The dict comprehension of [App.modules]:
    [{d.name: module for d in ... if d.is_dir() and (module := Module(...))}];
    the truth value of [module] is its [__bool__]. *)
Fixpoint modules_comprehension (self : App) (ds : list FS.path)
    (acc : gmap string AppModule) : Py.t World (gmap string AppModule) :=
  match ds with
  | [] => Py.ret acc
  | d :: ds' =>
      isd <- is_dir d;;
      if isd then
        let module := Module_init (FS.name d) d self in
        truthy <- __bool__ (IsModule module);;
        modules_comprehension self ds'
          (if truthy then <[FS.name d := module]> acc else acc)
      else modules_comprehension self ds' acc
  end.

(** property [App.modules]; the updated [self] is returned with the
    reference to the dict. *)
Definition App_modules (self : App) : Py.t World (App * loc) :=
  self' <- (if negb (App_hasattr self "__modules") then
              ds <- iterdir (App_python_path self);;
              d <- modules_comprehension self ds ∅;;
              l <- new_module_dict d;;
              Py.ret {| App_name := App_name self; App_path := App_path self;
                        App_python_path := App_python_path self;
                        _App__modules := Some l |}
            else Py.ret self);;
  match _App__modules self' with
  | Some l => Py.ret (self', l)
  | None => Py.raise AttributeError
  end.

(** *** [Apps] *)

Definition Apps_init (path : FS.path) : Apps :=
  {| Apps_path := path; _Apps__apps := None |}.

Definition Apps_dict_keys (self : Apps) : list string :=
  ["path"]
  ++ match _Apps__apps self with
     | Some _ => ["_Apps__apps"]
     | None => []
     end.

Definition Apps_hasattr (self : Apps) (attr : string) : bool :=
  bool_decide (attr ∈ Apps_dict_keys self).

(** [{d.name: app for d in self.path.iterdir()
      if d.is_dir() and (app := self.App(name=d.name, path=d))}] *)
Fixpoint apps_comprehension (ds : list FS.path) (acc : gmap string App)
    : Py.t World (gmap string App) :=
  match ds with
  | [] => Py.ret acc
  | d :: ds' =>
      isd <- is_dir d;;
      if isd then
        let app := App_init (FS.name d) d in
        truthy <- __bool__ (IsApp app);;
        apps_comprehension ds' (if truthy then <[FS.name d := app]> acc else acc)
      else apps_comprehension ds' acc
  end.

(** property [Apps.apps] *)
Definition Apps_apps (self : Apps) : Py.t World (Apps * loc) :=
  self' <- (if negb (Apps_hasattr self "__apps") then
              ds <- iterdir (Apps_path self);;
              d <- apps_comprehension ds ∅;;
              l <- new_app_dict d;;
              Py.ret {| Apps_path := Apps_path self; _Apps__apps := Some l |}
            else Py.ret self);;
  match _Apps__apps self' with
  | Some l => Py.ret (self', l)
  | None => Py.raise AttributeError
  end.

(** ** Configuration: [ConfigType], [ConfigHandler] *)

(** JSON-compatible values. *)
#[warnings="-register-all"] Inductive json : Type :=
  | JNull
  | JBool (b : bool)
  | JNum (n : Z)
  | JStr (s : string)
  | JList (l : list json)
  | JObject (o : list (string * json)).

(** A string-keyed mapping of JSON values. *)
Abbreviation ConfigType := (gmap string json).

(** Modelled from the spec: class [ConfigHandler] of [frappe/config.py],
    the ConfigStore of the spec.  [_config] is the loaded mapping, absent
    until first read; [_config_stale] is false immediately after a load. *)
Record ConfigHandler : Type := {
  config_path : FS.path;
  _config : option ConfigType;
  _config_stale : bool;
}.

(** Modelled from the spec: [ConfigHandler.__init__(config_path)]; nothing
    is loaded yet. *)
Definition ConfigHandler_init (path : FS.path) : ConfigHandler :=
  {| config_path := path; _config := None; _config_stale := false |}.

(** Modelled from the spec: property [ConfigHandler.config] returns the
    loaded mapping, loading it on first access and again after the store
    was marked stale.  [file] is the mapping that the backing JSON file
    holds at the time of the access (a missing file is the empty
    mapping). *)
Definition ConfigHandler_config (file : ConfigType) (self : ConfigHandler)
    : ConfigType * ConfigHandler :=
  let reload :=
    (file, {| config_path := config_path self; _config := Some file;
              _config_stale := false |}) in
  match _config self with
  | Some loaded => if _config_stale self then reload else (loaded, self)
  | None => reload
  end.

(** Modelled from the spec: [mark_stale()]. *)
Definition mark_stale (self : ConfigHandler) : ConfigHandler :=
  {| config_path := config_path self; _config := _config self;
     _config_stale := true |}.

(** ** Tenants: [Sites.Site] *)

Record Site : Type := {
  Site_name : string;
  Site_path : FS.path;
  Site_store : ConfigHandler;              (* the ConfigHandler base class *)
  _combined_config : option ConfigType;
}.

(** [Site.__init__(bench=..., name=..., path=...)] *)
Definition Site_init (name : string) (path : FS.path) : Site :=
  {| Site_name := name; Site_path := path;
     Site_store := ConfigHandler_init (FS.joinpath path "site_config.json");
     _combined_config := None |}.

Definition Site_dict_keys (self : Site) : list string :=
  ["name"; "path"; "bench"; "_ConfigHandler__config"; "_config_stale"; "_config"]
  ++ match _combined_config self with
     | Some _ => ["_combined_config"]
     | None => []
     end.

Definition Site_hasattr (self : Site) (attr : string) : bool :=
  bool_decide (attr ∈ Site_dict_keys self).

(** [ConfigType] called with the entries of [config] as keyword
    arguments: a mapping with those entries. *)
Definition ConfigType_of (config : ConfigType) : ConfigType := config.

(** property [Site.config].  The state is [self.bench.sites], the
    registry's store; [site_file] and [sites_file] are what
    [site_config.json] and [common_site_config.json] hold.  The updated
    [self] is returned with the mapping. *)
Definition Site_config (site_file sites_file : ConfigType) (self : Site)
    : Py.t ConfigHandler (Site * ConfigType) :=
  sites <- Py.get;;
  self' <- (if negb (Site_hasattr self "_combined_config")
               || _config_stale (Site_store self)
               || _config_stale sites
            then
              let (site_config, store') :=
                ConfigHandler_config site_file (Site_store self) in
              config <- (fun sites =>
                           let (c, sites') := ConfigHandler_config sites_file sites in
                           (Ret c, sites'));;
              (* config.update(site_config): the keys of site_config win *)
              let config := site_config ∪ config in
              Py.ret {| Site_name := Site_name self; Site_path := Site_path self;
                        Site_store := store';
                        _combined_config := Some (ConfigType_of config) |}
            else Py.ret self);;
  match _combined_config self' with
  | Some c => Py.ret (self', c)
  | None => Py.raise AttributeError
  end.

(** ** The tenant registry: [Sites] *)

Definition SCOPE_ALL_SITES : string := "__scope-all-sites__".

(** class [Sites]; [self.__sites] is the attribute [_Sites__sites]. *)
Record Sites : Type := {
  Sites_path : FS.path;
  Sites_store : ConfigHandler;             (* the ConfigHandler base class *)
  _Sites__sites : option (gmap string Site);
}.

(** What the registry's methods read and write: the file system, the
    thread-local [frappe.local.site_name] and the registry object. *)
Record State : Type := {
  disk : FS.node;
  frappe_local_site_name : option string;
  self_ : Sites;
}.

Definition Sites_dict_keys (self : Sites) : list string :=
  ["path"; "_ConfigHandler__config"; "_config_stale"; "_config"; "bench"]
  ++ match _Sites__sites self with
     | Some _ => ["_Sites__sites"]
     | None => []
     end.

Definition Sites_hasattr (self : Sites) (attr : string) : bool :=
  bool_decide (attr ∈ Sites_dict_keys self).

(** [Sites.__init__]: path and store are set up, then
    [self.site_name = os.environ.get("FRAPPE_SITE") or self.config.get("default_site")]
    (the store is read only when the environment gives no name); no tenant
    mapping exists yet.  [sites_file] is what [common_site_config.json]
    holds.  The identifier is a [str | None], as the source casts it: a
    [default_site] that is a string is stored, an absent or null one is
    [None]; a [default_site] of another JSON type, which the source would
    store as it is, is read as [None] here. *)
Definition Sites_init (root : FS.node) (path : FS.path)
    (FRAPPE_SITE : option string) (sites_file : ConfigType) : State :=
  let store := ConfigHandler_init (FS.joinpath path "common_site_config.json") in
  let from_config :=
    let (config, store') := ConfigHandler_config sites_file store in
    (match config !! "default_site" with
     | Some (JStr v) => Some v
     | _ => None
     end, store') in
  let (name, store') :=
    match FRAPPE_SITE with
    | Some v => if bool_decide (v = "") then from_config else (Some v, store)
    | None => from_config
    end in
  {| disk := root;
     frappe_local_site_name := name;
     self_ := {| Sites_path := path; Sites_store := store';
                 _Sites__sites := None |} |}.

(** Truth value of a [str | None]. *)
Definition truthy (v : option string) : bool :=
  match v with
  | Some s => negb (bool_decide (s = ""))
  | None => false
  end.

(** property [site_name]: [getattr(frappe.local, "site_name", None)] *)
Definition site_name : Py.t State (option string) :=
  fun s => (Ret (frappe_local_site_name s), s).

(** setter of [site_name] *)
Definition set_site_name (value : option string) : Py.t State unit :=
  fun s => (Ret tt, {| disk := disk s; frappe_local_site_name := value;
                       self_ := self_ s |}).

Definition set__sites (v : option (gmap string Site)) : Py.t State unit :=
  fun s =>
    (Ret tt,
     {| disk := disk s; frappe_local_site_name := frappe_local_site_name s;
        self_ := {| Sites_path := Sites_path (self_ s);
                    Sites_store := Sites_store (self_ s);
                    _Sites__sites := v |} |}).

(** Reading the attribute [self.__sites]. *)
Definition get__sites : Py.t State (gmap string Site) :=
  fun s =>
    match _Sites__sites (self_ s) with
    | Some d => (Ret d, s)
    | None => (Raise AttributeError, s)
    end.

(** [del self.__sites] *)
Definition del__sites : Py.t State unit :=
  _ <- get__sites;; set__sites None.

(** [self.__sites[key] = value] *)
Definition setitem__sites (key : string) (value : Site) : Py.t State unit :=
  d <- get__sites;; set__sites (Some (<[key := value]> d)).

(** Whether [Path.joinpath(c)] appends the string [c] as one component
    that names an entry of the directory: [c] is not empty, holds no
    separator and is neither [.] nor [..].  pathlib splits any other
    string at its separators and drops the empty and [.] parts, so that
    [joinpath("site1/")] has the name [site1].  [FS.joinpath] is
    [Path.joinpath] on the strings of [single_component], which the names
    of directory entries are. *)
Definition single_component (c : string) : bool :=
  negb (bool_decide (c = ""))
  && negb (contains "/" c)
  && negb (bool_decide (c = "."))
  && negb (bool_decide (c = "..")).

(** [_process(path)], the local function of [_sites]. *)
Definition _process (path : FS.path) : Py.t State unit :=
  s <- Py.get;;
  if FS.is_dir (disk s) path
     && FS.exists_ (disk s) (FS.joinpath path "site_config.json")
  then setitem__sites (FS.name path) (Site_init (FS.name path) path)
  else Py.ret tt.

Fixpoint for_each {St A} (body : A -> Py.t St unit) (l : list A) : Py.t St unit :=
  match l with
  | [] => Py.ret tt
  | x :: l' => body x;;; for_each body l'
  end.

(** property [_sites].  The active identifier is joined to the registry
    path as one component (see [single_component]). *)
Definition _sites : Py.t State (gmap string Site) :=
  s <- Py.get;;
  (if negb (Sites_hasattr (self_ s) "__sites") then
     set__sites (Some ∅);;;
     name <- site_name;;
     if truthy name && negb (bool_decide (name = Some SCOPE_ALL_SITES)) then
       _process (FS.joinpath (Sites_path (self_ s)) (default "" name))
     else if bool_decide (name = Some SCOPE_ALL_SITES) then
       ds <- Py.lift (FS.iterdir (disk s) (Sites_path (self_ s)));;
       for_each _process ds
     else Py.ret tt
   else Py.ret tt);;;
  get__sites.

(** [Sites.__getitem__] *)
Definition Sites_getitem (key : string) : Py.t State Site :=
  Py.catch
    (d <- _sites;;
     match d !! key with
     | Some site => Py.ret site
     | None => Py.raise KeyError
     end)
    KeyError
    (Py.raise BenchSiteNotLoadedError).

(** property [site] *)
Definition site : Py.t State Site :=
  name <- site_name;;
  if negb (truthy name) || bool_decide (name = Some SCOPE_ALL_SITES) then
    Py.raise BenchNotScopedError
  else Sites_getitem (default "" name).

(** [Sites.scope(site_name=None)] *)
Definition scope (site_name_arg : option string) : Py.t State Site :=
  match site_name_arg with
  | None => site
  | Some n =>
      del__sites;;;
      set_site_name (Some n);;;
      name <- site_name;;
      if negb (bool_decide (name = Some SCOPE_ALL_SITES)) then site
      else Py.raise BenchNotScopedError
  end.

(** property [scoped] *)
Definition scoped : Py.t State bool :=
  name <- site_name;;
  Py.ret (truthy name && negb (bool_decide (name = Some SCOPE_ALL_SITES))).

(** [Sites.__iter__]: the tenants the iterator yields. *)
Definition Sites_iter : Py.t State (list Site) :=
  name <- site_name;;
  if bool_decide (name = Some SCOPE_ALL_SITES) then
    d <- _sites;; Py.ret (map_to_list d).*2
  else if truthy name then
    site <- Sites_getitem (default "" name);; Py.ret [site]
  else Py.raise BenchNotScopedError.

(** [Sites.__len__] *)
Definition Sites_len : Py.t State nat :=
  d <- _sites;; Py.ret (size d).

(** [dir_path.mkdir(parents=True, exist_ok=True)] *)
Definition mkdir (p : FS.path) : Py.t State unit :=
  fun s =>
    match FS.mkdir (disk s) p with
    | Ret root' =>
        (Ret tt, {| disk := root'; frappe_local_site_name := frappe_local_site_name s;
                    self_ := self_ s |})
    | Raise e => (Raise e, s)
    end.

(** [Sites.add_site] *)
Definition add_site (name : string) : Py.t State unit :=
  s <- Py.get;;
  let site_path := FS.joinpath (Sites_path (self_ s)) name in
  for_each mkdir
    [ site_path ++ ["public"; "files"];
      site_path ++ ["private"; "backups"];
      site_path ++ ["private"; "files"];
      site_path ++ ["locks"];
      site_path ++ ["logs"] ];;;
  setitem__sites name (Site_init name site_path).

(** [Sites.remove_site] *)
Definition remove_site (name : string) : Py.t State unit :=
  d <- get__sites;;
  match d !! name with
  | Some _ => set__sites (Some (delete name d))
  | None => Py.ret tt
  end.

(** ** Container protocol of [Apps] and [Apps.App] *)

(** The dict object behind a reference (a reference handed out by
    [new_app_dict] is always on the heap). *)
Definition app_dict (l : loc) : Py.t World (gmap string App) :=
  fun w => (Ret (default ∅ (app_dicts w !! l)), w).

Definition module_dict (l : loc) : Py.t World (gmap string AppModule) :=
  fun w => (Ret (default ∅ (module_dicts w !! l)), w).

(** [Apps.__getitem__]: [self.apps[key]] *)
Definition Apps_getitem (self : Apps) (key : string) : Py.t World (Apps * App) :=
  r <- Apps_apps self;;
  d <- app_dict r.2;;
  match d !! key with
  | Some app => Py.ret (r.1, app)
  | None => Py.raise KeyError
  end.

(** [Apps.__len__]: [len(self.apps)] *)
Definition Apps_len (self : Apps) : Py.t World (Apps * nat) :=
  r <- Apps_apps self;;
  d <- app_dict r.2;;
  Py.ret (r.1, size d).

(** [Apps.__iter__]: [iter(self.apps.values())], the apps it yields. *)
Definition Apps_iter (self : Apps) : Py.t World (Apps * list App) :=
  r <- Apps_apps self;;
  d <- app_dict r.2;;
  Py.ret (r.1, (map_to_list d).*2).

(** [App.__getitem__]: [self.modules[key]] *)
Definition App_getitem (self : App) (key : string) : Py.t World (App * AppModule) :=
  r <- App_modules self;;
  d <- module_dict r.2;;
  match d !! key with
  | Some module => Py.ret (r.1, module)
  | None => Py.raise KeyError
  end.

(** ** Identity of a tenant: [Site.__eq__], [Site.__hash__], [Site.__str__] *)

(** [Site.__str__] *)
Definition Site_str (self : Site) : string := Site_name self.

(** What a tenant is compared with: another tenant or a bare name. *)
Inductive comparand : Type :=
  | ASite (o : Site)
  | AStr (o : string).

(** [str(o)] *)
Definition str (o : comparand) : string :=
  match o with
  | ASite site => Site_str site
  | AStr name => name
  end.

(** [Site.__eq__]: [self.name == str(o)] *)
Definition Site_eq (self : Site) (o : comparand) : bool :=
  bool_decide (Site_name self = str o).

(** [Site.__hash__]: [hash(self.name)], for a hash function on [str]. *)
Definition Site_hash (hash : string -> Z) (self : Site) : Z := hash (Site_name self).

(** ** Path resolution: [BenchPathResolver], [Logs], [Run], [Bench] *)

Fixpoint upper (s : string) : string :=
  match s with
  | EmptyString => EmptyString
  | String c s' => String (to_upper c) (upper s')
  end.

Fixpoint lower (s : string) : string :=
  match s with
  | EmptyString => EmptyString
  | String c s' => String (to_lower c) (lower s')
  end.

(** The classes that derive from [BenchPathResolver]. *)
Inductive resolver_class : Type := KBench | KApps | KLogs | KRun | KSites.

(** [self.__class__.__name__] *)
Definition class_name (k : resolver_class) : string :=
  match k with
  | KBench => "Bench"
  | KApps => "Apps"
  | KLogs => "Logs"
  | KRun => "Run"
  | KSites => "Sites"
  end.

(** [isinstance(self, Bench)] *)
Definition is_Bench (k : resolver_class) : bool :=
  match k with
  | KBench => true
  | _ => false
  end.

(** A [str | Path] value. *)
Inductive pathlike : Type :=
  | PStr (s : string)
  | PPath (p : FS.path).

(** Truth value of a [str | Path | None]: a [Path] is always true. *)
Definition pathlike_truthy (v : option pathlike) : bool :=
  match v with
  | Some (PStr s) => negb (bool_decide (s = ""))
  | Some (PPath _) => true
  | None => false
  end.

(** [a or b] *)
Definition or_ (a b : option pathlike) : option pathlike :=
  if pathlike_truthy a then a else b.

(** [os.environ.get(key)] *)
Definition environ_get (environ : gmap string string) (key : string) : option pathlike :=
  PStr <$> environ !! key.

Section PathResolution.

(** [Path(s)] for a string: the parser of [pathlib]. *)
Variable Path_of_str : string -> FS.path.

(** [Path(v)] *)
Definition Path_ (v : pathlike) : FS.path :=
  match v with
  | PStr s => Path_of_str s
  | PPath p => p
  end.

(** [BenchPathResolver.__init__]: the value of [self.path], or [None]
    where the constructor raises [ValueError].  [bench_folder] is
    [Path(__file__).resolve().parents[3]]. *)
Definition BenchPathResolver_init (k : resolver_class) (path : option pathlike)
    (parent_path : option FS.path) (environ : gmap string string)
    (bench_folder : FS.path) : option FS.path :=
  let path :=
    or_ path
      (or_ (environ_get environ ("FRAPPE_" +:+ upper (class_name k) +:+ "_PATH"))
           (match parent_path with
            | Some parent => Some (PPath (FS.joinpath parent (lower (class_name k))))
            | None => None
            end)) in
  let path :=
    if negb (pathlike_truthy path) && is_Bench k then
      or_ (environ_get environ "FRAPPE_BENCH_ROOT") (Some (PPath bench_folder))
    else path in
  match path with
  | None => None
  | Some v => Some (Path_ v)
  end.

(** [Logs.__init__(path=None, parent_path=None)] *)
Definition Logs_init (path : option pathlike) (parent_path : option FS.path)
    (environ : gmap string string) (bench_folder : FS.path) : option FS.path :=
  BenchPathResolver_init KLogs path parent_path environ bench_folder.

(** [Logs.get_log_file] *)
Definition get_log_file (logs_path : FS.path) (log_type : string) : FS.path :=
  FS.joinpath logs_path (log_type +:+ ".log").

(** [Run.__init__]: [config] is the legacy name of the folder. *)
Definition Run_init (path : option pathlike) (parent_path : option FS.path)
    (environ : gmap string string) (bench_folder : FS.path) : option FS.path :=
  BenchPathResolver_init KRun
    (or_ path
         (match parent_path with
          | Some parent => Some (PPath (FS.joinpath parent "config"))
          | None => None
          end))
    parent_path environ bench_folder.

(** The paths of a [Bench] and of the four objects it owns. *)
Record layout : Type := {
  layout_bench : FS.path;
  layout_logs : FS.path;
  layout_run : FS.path;
  layout_sites : FS.path;
  layout_apps : FS.path;
}.

(** [Bench.__init__], as far as paths are resolved: [None] where a
    constructor raises [ValueError]. *)
Definition Bench_init (path : option pathlike) (environ : gmap string string)
    (bench_folder : FS.path) : option layout :=
  self_path ← BenchPathResolver_init KBench path None environ bench_folder;
  logs ← Logs_init None (Some self_path) environ bench_folder;
  run ← Run_init None (Some self_path) environ bench_folder;
  sites ← BenchPathResolver_init KSites None (Some self_path) environ bench_folder;
  apps ← BenchPathResolver_init KApps None (Some self_path) environ bench_folder;
  Some {| layout_bench := self_path; layout_logs := logs; layout_run := run;
          layout_sites := sites; layout_apps := apps |}.

End PathResolution.

(** ** Auxiliary definitions for the statements *)

(** The marker-file check of [_is_frappe_component] as a function of the
    tree. *)
Definition has_marker (root : FS.node) (python_path : FS.path) : bool :=
  FS.is_dir root python_path
  && FS.exists_ root (FS.joinpath python_path ".frappe").

(** The world with other notices recorded. *)
Definition with_notices (ns : list string) (w : World) : World :=
  {| fs := fs w; _current_bench := _current_bench w;
     app_dicts := app_dicts w; module_dicts := module_dicts w;
     next_loc := next_loc w; scans := scans w; notices := ns |}.

(** A dict filled key by key with [v n] for the names [n] that pass
    [keep]. *)
Definition fill {V} (keep : string -> bool) (v : string -> V)
    (names : list string) (acc : gmap string V) : gmap string V :=
  foldl (fun acc n => if keep n then <[n := v n]> acc else acc) acc names.

(** The names a directory lists. *)
Definition listing (entries : gmap string FS.node) : list string :=
  (map_to_list entries).*1.

(** Whether the comprehension of [Apps.apps] keeps the directory entry
    [n] of [p]. *)
Definition keeps_app (root : FS.node) (text : string) (p : FS.path) (n : string) : bool :=
  FS.is_dir root (FS.joinpath p n)
  && (has_marker root (FS.joinpath (FS.joinpath p n) n) || contains n text).

(** Whether the comprehension of [App.modules] keeps the directory entry
    [n] of the python path [p]. *)
Definition keeps_module (root : FS.node) (text : string) (p : FS.path) (n : string) : bool :=
  FS.is_dir root (FS.joinpath p n)
  && (has_marker root (FS.joinpath p n) || contains (title n) text).

(** ** A sample bench *)

Definition dir (l : list (string * FS.node)) : FS.node := FS.Dir (list_to_map l).

(** [/bench/apps] holds the app [erpnext] (marked, with modules), the
    unmarked directories [erp] and [foo] and a file; [/bench/sites] lists
    [erpnext] in [apps.txt] and holds the tenants [site1] and [site2] and a
    directory that is not a tenant. *)
Definition sample_disk : FS.node :=
  dir [("bench",
        dir [("apps",
              dir [("erp", dir []);
                   ("foo", dir []);
                   ("README.md", FS.File "apps");
                   ("erpnext",
                    dir [("erpnext",
                          dir [(".frappe", FS.File "");
                               ("modules.txt", FS.File "Stock Entry");
                               ("hooks.py", FS.File "");
                               ("stock", dir [(".frappe", FS.File "")]);
                               ("stock_entry", dir []);
                               ("entry", dir []);
                               ("hr", dir [])])])]);
             ("sites",
              dir [("apps.txt", FS.File "erpnext");
                   ("common_site_config.json", FS.File "");
                   ("assets", dir []);
                   ("site1", dir [("site_config.json", FS.File "")]);
                   ("site2", dir [("site_config.json", FS.File "")])])])].

Definition sample_bench : Bench :=
  {| Bench_path := ["bench"]; Bench_sites_path := ["bench"; "sites"] |}.

(** The world right after [Bench.__init__]. *)
Definition sample_world : World :=
  {| fs := sample_disk; _current_bench := Some sample_bench;
     app_dicts := ∅; module_dicts := ∅; next_loc := 0; scans := 0;
     notices := [] |}.

Definition sample_apps : Apps := Apps_init ["bench"; "apps"].

Definition sample_app : App := App_init "erpnext" ["bench"; "apps"; "erpnext"].

(** What the [config] accessor of a store returns at an access. *)
Definition config_of (file : ConfigType) (store : ConfigHandler) : ConfigType :=
  (ConfigHandler_config file store).1.

(** Whether [Site.config] computes the merge at this access: no cached
    merge yet, or one of the two stores is stale. *)
Definition merge_trigger (self : Site) (sites : ConfigHandler) : bool :=
  negb (Site_hasattr self "_combined_config")
  || _config_stale (Site_store self)
  || _config_stale sites.

Definition sample_sites_config : ConfigType :=
  <["a" := JNum 1]> (<["b" := JNum 1]> ∅).

(** The registry-wide file after an edit of the key [a]. *)
Definition sample_sites_config_edited : ConfigType :=
  <["a" := JNum 7]> (<["b" := JNum 1]> ∅).

Definition sample_site_config : ConfigType := <["b" := JNum 2]> ∅.

(** The test of [_process]: a directory that holds [site_config.json]. *)
Definition keeps_site (root : FS.node) (p : FS.path) (n : string) : bool :=
  FS.is_dir root (FS.joinpath p n)
  && FS.exists_ root (FS.joinpath (FS.joinpath p n) "site_config.json").

(** The state with the attribute [_Sites__sites] set to [v] (or deleted). *)
Definition with_sites (v : option (gmap string Site)) (s : State) : State :=
  {| disk := disk s; frappe_local_site_name := frappe_local_site_name s;
     self_ := {| Sites_path := Sites_path (self_ s);
                 Sites_store := Sites_store (self_ s);
                 _Sites__sites := v |} |}.

(** The state with the thread-local site name set to [v]. *)
Definition with_site_name (v : option string) (s : State) : State :=
  {| disk := disk s; frappe_local_site_name := v; self_ := self_ s |}.

(** The tenant of name [n] below [p], as [_process] builds it. *)
Definition tenant (p : FS.path) (n : string) : Site := Site_init n (FS.joinpath p n).

(** The mapping a read of [_sites] builds in state [s]: a function of the
    file system and the active identifier only.  Like [_sites] it joins
    the identifier as one component. *)
Definition visible_sites (s : State) : outcome (gmap string Site) :=
  let p := Sites_path (self_ s) in
  match frappe_local_site_name s with
  | None => Ret ∅
  | Some n =>
      if bool_decide (n = SCOPE_ALL_SITES) then
        match FS.stat (disk s) p with
        | Ret (FS.Dir entries) =>
            Ret (fill (keeps_site (disk s) p) (tenant p) (listing entries) ∅)
        | Ret (FS.File _) => Raise NotADirectoryError
        | Raise e => Raise e
        end
      else if bool_decide (n = "") then Ret ∅
      else Ret (fill (keeps_site (disk s) p) (tenant p) [n] ∅)
  end.

(** A registry on the sample bench as [Sites.__init__] leaves it, with no
    site named by the environment or the configuration. *)
Definition sample_registry : State :=
  Sites_init sample_disk ["bench"; "sites"] None ∅.

(** The sample registry once [_sites] has been read (by [len(sites)],
    say): the attribute exists and, unscoped, holds the empty mapping. *)
Definition sample_registry_read : State := with_sites (Some ∅) sample_registry.

(** The sample registry scoped to [site1], with its mapping read. *)
Definition sample_registry_site1 : State :=
  with_site_name (Some "site1")
    (with_sites (Some (<["site1" := tenant ["bench"; "sites"] "site1"]> ∅))
       sample_registry).

(** The directory skeleton of a new tenant. *)
Definition skeleton (site_path : FS.path) : list FS.path :=
  [ site_path ++ ["public"; "files"];
    site_path ++ ["private"; "backups"];
    site_path ++ ["private"; "files"];
    site_path ++ ["locks"];
    site_path ++ ["logs"] ].

(** The sample disk before any [Bench] was constructed. *)
Definition sample_world_no_bench : World :=
  {| fs := sample_disk; _current_bench := None; app_dicts := ∅;
     module_dicts := ∅; next_loc := 0; scans := 0; notices := [] |}.

(** The sample disk with a bench whose sites directory does not exist. *)
Definition sample_world_no_sites : World :=
  {| fs := sample_disk;
     _current_bench := Some {| Bench_path := ["bench"];
                               Bench_sites_path := ["bench"; "nowhere"] |};
     app_dicts := ∅; module_dicts := ∅; next_loc := 0; scans := 0;
     notices := [] |}.

(** The tenant with its own store marked stale. *)
Definition Site_mark_stale (self : Site) : Site :=
  {| Site_name := Site_name self; Site_path := Site_path self;
     Site_store := mark_stale (Site_store self);
     _combined_config := _combined_config self |}.

(** * Properties *)

(** ** Running the monad *)

Lemma bind_Ret {St A B} (c : Py.t St A) (k : A -> Py.t St B) s a s' :
  c s = (Ret a, s') -> Py.bind c k s = k a s'.
Proof. intros H. unfold Py.bind. by rewrite H. Qed.

(** ** Strings *)

Lemma prefix_append (a b : string) :
  String.prefix a b = true <-> exists post, b = a +:+ post.
Proof.
  revert b. induction a as [|c a IH]; intros b.
  - split; [intros _; by exists b | by destruct b].
  - destruct b as [|c' b]; simpl.
    + split; [done | intros [post H]; discriminate H].
    + destruct (Ascii.ascii_dec c c') as [->|Hne].
      * rewrite IH. split; intros [post H]; exists post.
        -- by rewrite H.
        -- by injection H.
      * split; [done | intros [post H]; injection H; congruence].
Qed.

Lemma contains_unfold (needle hay : string) :
  contains needle hay
  = String.prefix needle hay
    || match hay with
       | EmptyString => false
       | String _ hay' => contains needle hay'
       end.
Proof. by destruct hay. Qed.

(** [contains] is the substring relation. *)
Lemma contains_substring (needle hay : string) :
  contains needle hay = true <-> exists pre post, hay = pre +:+ needle +:+ post.
Proof.
  split.
  - induction hay as [|c hay IH]; rewrite contains_unfold;
      intros [H|H]%orb_true_iff.
    + apply prefix_append in H as [post ->]. by exists "", post.
    + done.
    + apply prefix_append in H as [post ->]. by exists "", post.
    + destruct (IH H) as (pre & post & ->). by exists (String c pre), post.
  - intros (pre & post & ->). induction pre as [|c pre IH].
    + rewrite contains_unfold. apply orb_true_iff. left.
      apply prefix_append. by exists post.
    + simpl. rewrite IH. apply orb_true_r.
Qed.

Example title_examples :
  title "stock" = "Stock" /\ title "stock_entry 2x" = "Stock_Entry 2X"
  /\ title "hR" = "Hr".
Proof. repeat split; reflexivity. Qed.

Example contains_examples :
  contains "erp" "erpnext" = true /\ contains "hrms" "erpnext" = false
  /\ contains "" "" = true.
Proof. repeat split; reflexivity. Qed.

(** ** File system *)

Lemma name_joinpath (p : FS.path) (c : string) : FS.name (FS.joinpath p c) = c.
Proof. unfold FS.name, FS.joinpath. by rewrite last_snoc. Qed.

Lemma stat_joinpath root p c :
  FS.stat root (FS.joinpath p c)
  = match FS.stat root p with
    | Ret n => FS.stat n [c]
    | Raise e => Raise e
    end.
Proof.
  unfold FS.joinpath. revert root. induction p as [|x p IH]; intros root; [done|].
  simpl. destruct root as [text|m]; [done|]. destruct (m !! x); [apply IH | done].
Qed.

(** Below a directory, [is_dir] of a child implies that the directory
    lists the child. *)
Lemma is_dir_child_listed root p m c :
  FS.stat root p = Ret (FS.Dir m) ->
  FS.is_dir root (FS.joinpath p c) = true ->
  c ∈ (map_to_list m).*1.
Proof.
  intros Hp. unfold FS.is_dir. rewrite stat_joinpath, Hp. simpl.
  destruct (m !! c) as [n|] eqn:Hc; [intros _ | done].
  apply list_elem_of_fmap. exists (c, n). split; [done|].
  by apply elem_of_map_to_list.
Qed.

Lemma lookup_fill {V} (keep : string -> bool) (v : string -> V) names acc k :
  fill keep v names acc !! k
  = if bool_decide (k ∈ names) && keep k then Some (v k) else acc !! k.
Proof.
  unfold fill. revert acc. induction names as [|n names IH]; intros acc; [done|].
  simpl. rewrite IH. destruct (decide (k = n)) as [->|Hne].
  - rewrite (bool_decide_eq_true_2 (n ∈ n :: names)) by apply list_elem_of_here.
    destruct (bool_decide (n ∈ names)), (keep n); simpl;
      by rewrite ?lookup_insert_eq.
  - assert (bool_decide (k ∈ n :: names) = bool_decide (k ∈ names)) as ->
      by (apply bool_decide_ext; rewrite elem_of_cons; split; [by intros [?|?] | by right]).
    destruct (bool_decide (k ∈ names) && keep k); [done|].
    destruct (keep n); [by rewrite lookup_insert_ne | done].
Qed.

(** [mkdir] makes its path a directory and keeps the directories that
    were there. *)
Lemma mkdir_is_dir p : forall root root',
  FS.mkdir root p = Ret root' -> FS.is_dir root' p = true.
Proof.
  induction p as [|c p IH]; intros [text|m] root' H; try done.
  - by injection H as <-.
  - cbn in H. destruct (FS.mkdir (default (FS.Dir ∅) (m !! c)) p) as [child|e] eqn:Hc;
      [|done].
    injection H as <-. unfold FS.is_dir. cbn. rewrite lookup_insert_eq.
    apply IH in Hc. exact Hc.
Qed.

Lemma mkdir_keeps_dirs p : forall root root' q,
  FS.mkdir root p = Ret root' ->
  FS.is_dir root q = true -> FS.is_dir root' q = true.
Proof.
  induction p as [|c p IH]; intros [text|m] root' q H Hq; try done.
  - by injection H as <-.
  - cbn in H. destruct (FS.mkdir (default (FS.Dir ∅) (m !! c)) p) as [child|e] eqn:Hc;
      [|done].
    injection H as <-. destruct q as [|c' q]; [done|].
    unfold FS.is_dir in *. cbn in *.
    destruct (decide (c' = c)) as [->|Hne].
    + rewrite lookup_insert_eq. destruct (m !! c) as [child0|] eqn:Hm; [|done].
      exact (IH _ _ q Hc Hq).
    + by rewrite lookup_insert_ne.
Qed.

(** ** Components *)

Lemma _is_frappe_component_run self w :
  _is_frappe_component self w = (Ret (has_marker (fs w) (python_path self)), w).
Proof.
  unfold _is_frappe_component, has_marker, Py.bind, is_dir, exists_, Py.ret.
  by destruct (FS.is_dir (fs w) (python_path self)).
Qed.

(** With the legacy manifest readable, the truth value of an app is the
    marker check or the substring test; only notices are recorded. *)
Lemma bool_App_run (a : App) w bench text :
  _current_bench w = Some bench ->
  FS.read_text (fs w) (FS.joinpath (Bench_sites_path bench) "apps.txt") = Ret text ->
  exists ns,
    __bool__ (IsApp a) w
    = (Ret (has_marker (fs w) (App_python_path a) || contains (App_name a) text),
       with_notices ns w).
Proof.
  intros Hb Ht. unfold __bool__.
  rewrite (bind_Ret _ _ _ _ _ (_is_frappe_component_run _ _)). simpl.
  destruct (has_marker (fs w) (App_python_path a)); simpl.
  - exists (notices w). by destruct w.
  - unfold _is_app_installed, Py.bind, current_bench, read_text.
    rewrite Hb, Ht. destruct (contains (App_name a) text); simpl.
    + by eexists.
    + exists (notices w). by destruct w.
Qed.

Lemma bool_Module_run (m : AppModule) w text :
  FS.read_text (fs w) (FS.joinpath (Module_app_python_path m) "modules.txt") = Ret text ->
  exists ns,
    __bool__ (IsModule m) w
    = (Ret (has_marker (fs w) (Module_python_path m)
            || contains (title (Module_name m)) text),
       with_notices ns w).
Proof.
  intros Ht. unfold __bool__.
  rewrite (bind_Ret _ _ _ _ _ (_is_frappe_component_run _ _)). simpl.
  destruct (has_marker (fs w) (Module_python_path m)); simpl.
  - exists (notices w). by destruct w.
  - unfold _is_module_registered, Py.bind, read_text.
    rewrite Ht. destruct (contains (title (Module_name m)) text); simpl.
    + by eexists.
    + exists (notices w). by destruct w.
Qed.

Lemma apps_comprehension_run p names : forall acc w bench text,
  _current_bench w = Some bench ->
  FS.read_text (fs w) (FS.joinpath (Bench_sites_path bench) "apps.txt") = Ret text ->
  exists ns,
    apps_comprehension (FS.joinpath p <$> names) acc w
    = (Ret (fill (keeps_app (fs w) text p) (fun n => App_init n (FS.joinpath p n))
              names acc),
       with_notices ns w).
Proof.
  induction names as [|n names IH]; intros acc w bench text Hb Ht.
  - exists (notices w). by destruct w.
  - cbn [fmap list_fmap apps_comprehension]. unfold Py.bind at 1, is_dir at 1.
    rewrite name_joinpath. unfold fill. cbn [foldl]. unfold keeps_app at 2.
    destruct (FS.is_dir (fs w) (FS.joinpath p n)); cbn [andb].
    + destruct (bool_App_run (App_init n (FS.joinpath p n)) w bench text Hb Ht)
        as [ns Hrun].
      rewrite (bind_Ret _ _ _ _ _ Hrun). cbn [App_init App_python_path App_name].
      edestruct (IH (if has_marker (fs w) (FS.joinpath (FS.joinpath p n) n)
                        || contains n text
                     then <[n:=App_init n (FS.joinpath p n)]> acc else acc)
                   (with_notices ns w) bench text Hb Ht) as [ns' ->].
      by exists ns'.
    + destruct (IH acc w bench text Hb Ht) as [ns' ->]. by exists ns'.
Qed.

Lemma modules_comprehension_run (self : App) names : forall acc w text,
  FS.read_text (fs w) (FS.joinpath (App_python_path self) "modules.txt") = Ret text ->
  exists ns,
    modules_comprehension self (FS.joinpath (App_python_path self) <$> names) acc w
    = (Ret (fill (keeps_module (fs w) text (App_python_path self))
              (fun n => Module_init n (FS.joinpath (App_python_path self) n) self)
              names acc),
       with_notices ns w).
Proof.
  induction names as [|n names IH]; intros acc w text Ht.
  - exists (notices w). by destruct w.
  - cbn [fmap list_fmap modules_comprehension]. unfold Py.bind at 1, is_dir at 1.
    rewrite name_joinpath. unfold fill. cbn [foldl]. unfold keeps_module at 2.
    destruct (FS.is_dir (fs w) (FS.joinpath (App_python_path self) n)); cbn [andb].
    + destruct (bool_Module_run
                  (Module_init n (FS.joinpath (App_python_path self) n) self)
                  w text Ht) as [ns Hrun].
      rewrite (bind_Ret _ _ _ _ _ Hrun).
      cbn [Module_init Module_python_path Module_name].
      edestruct (IH (if has_marker (fs w) (FS.joinpath (App_python_path self) n)
                        || contains (title n) text
                     then <[n:=Module_init n (FS.joinpath (App_python_path self) n) self]> acc
                     else acc)
                   (with_notices ns w) text Ht) as [ns' ->].
      by exists ns'.
    + destruct (IH acc w text Ht) as [ns' ->]. by exists ns'.
Qed.

(** [hasattr] is asked for the name as written in the source, while the
    attribute is stored under its mangled name. *)
Lemma Apps_hasattr_private self : Apps_hasattr self "__apps" = false.
Proof. unfold Apps_hasattr, Apps_dict_keys. by destruct (_Apps__apps self). Qed.

Lemma App_hasattr_private self : App_hasattr self "__modules" = false.
Proof. unfold App_hasattr, App_dict_keys. by destruct (_App__modules self). Qed.

(** One read of [Apps.apps], in full. *)
Lemma Apps_apps_run self w bench text entries :
  _current_bench w = Some bench ->
  FS.read_text (fs w) (FS.joinpath (Bench_sites_path bench) "apps.txt") = Ret text ->
  FS.stat (fs w) (Apps_path self) = Ret (FS.Dir entries) ->
  exists ns,
    Apps_apps self w
    = (Ret ({| Apps_path := Apps_path self; _Apps__apps := Some (next_loc w) |},
            next_loc w),
       {| fs := fs w; _current_bench := _current_bench w;
          app_dicts :=
            <[next_loc w :=
                fill (keeps_app (fs w) text (Apps_path self))
                  (fun n => App_init n (FS.joinpath (Apps_path self) n))
                  (listing entries) ∅]> (app_dicts w);
          module_dicts := module_dicts w;
          next_loc := S (next_loc w); scans := S (scans w); notices := ns |}).
Proof.
  intros Hb Ht Hd. unfold Apps_apps. rewrite Apps_hasattr_private. cbn [negb].
  unfold Py.bind at 1. unfold Py.bind at 1. unfold iterdir at 1, FS.iterdir.
  rewrite Hd.
  set (w1 := {| fs := fs w; scans := S (scans w) |}).
  destruct (apps_comprehension_run (Apps_path self) (listing entries) ∅ w1 bench text
              Hb Ht) as [ns Hrun].
  exists ns. unfold Py.bind, listing in *. by rewrite Hrun.
Qed.

(** One read of [App.modules], in full. *)
Lemma App_modules_run self w text entries :
  FS.read_text (fs w) (FS.joinpath (App_python_path self) "modules.txt") = Ret text ->
  FS.stat (fs w) (App_python_path self) = Ret (FS.Dir entries) ->
  exists ns,
    App_modules self w
    = (Ret ({| App_name := App_name self; App_path := App_path self;
               App_python_path := App_python_path self;
               _App__modules := Some (next_loc w) |},
            next_loc w),
       {| fs := fs w; _current_bench := _current_bench w;
          app_dicts := app_dicts w;
          module_dicts :=
            <[next_loc w :=
                fill (keeps_module (fs w) text (App_python_path self))
                  (fun n => Module_init n (FS.joinpath (App_python_path self) n) self)
                  (listing entries) ∅]> (module_dicts w);
          next_loc := S (next_loc w); scans := S (scans w); notices := ns |}).
Proof.
  intros Ht Hd. unfold App_modules. rewrite App_hasattr_private. cbn [negb].
  unfold Py.bind at 1. unfold Py.bind at 1. unfold iterdir at 1, FS.iterdir.
  rewrite Hd.
  set (w1 := {| fs := fs w; scans := S (scans w) |}).
  destruct (modules_comprehension_run self (listing entries) ∅ w1 text Ht)
    as [ns Hrun].
  exists ns. unfold Py.bind, listing in *. by rewrite Hrun.
Qed.

(** What a scanned dict holds under a name. *)
Lemma lookup_fill_listing {V} root p entries (keep : string -> bool)
    (v : string -> V) k :
  FS.stat root p = Ret (FS.Dir entries) ->
  (keep k = true -> FS.is_dir root (FS.joinpath p k) = true) ->
  fill keep v (listing entries) ∅ !! k = if keep k then Some (v k) else None.
Proof.
  intros Hd Hk. rewrite lookup_fill, lookup_empty.
  destruct (keep k) eqn:E; [|by rewrite andb_false_r].
  rewrite bool_decide_eq_true_2; [done|].
  eapply is_dir_child_listed; eauto.
Qed.

Example sample_apps_read :
  let r := Apps_apps sample_apps sample_world in
  r.1 = Ret ({| Apps_path := ["bench"; "apps"]; _Apps__apps := Some 0 |}, 0)
  /\ dom <$> app_dicts r.2 !! 0 = Some {["erp"; "erpnext"]}
  /\ notices r.2 = ["erp"].
Proof. repeat split; vm_compute; reflexivity. Qed.

Example sample_modules_read :
  let r := App_modules sample_app sample_world in
  fst <$> (match r.1 with Ret x => Some x | Raise _ => None end)
  = Some {| App_name := "erpnext"; App_path := ["bench"; "apps"; "erpnext"];
            App_python_path := ["bench"; "apps"; "erpnext"; "erpnext"];
            _App__modules := Some 0 |}
  /\ dom <$> module_dicts r.2 !! 0 = Some {["stock"; "entry"]}
  /\ notices r.2 = ["Entry"].
Proof. repeat split; vm_compute; reflexivity. Qed.

(** C1, as stated, fails: [/bench/apps/foo] is an immediate subdirectory
    of the registry root, it carries no marker and [apps.txt] does not
    mention it, and the mapping read from [Apps.apps] has no entry
    ["foo"]. *)
Lemma components_unfiltered_counterexample :
  let r := Apps_apps sample_apps sample_world in
  r.1 = Ret ({| Apps_path := ["bench"; "apps"]; _Apps__apps := Some 0 |}, 0)
  /\ FS.is_dir (fs sample_world) (FS.joinpath (Apps_path sample_apps) "foo") = true
  /\ (fun d : gmap string App => d !! "foo") <$> app_dicts r.2 !! 0 = Some None.
Proof. repeat split; vm_compute; reflexivity. Qed.

(** C1 (amended): reading [Apps.apps] and [App.modules] filters by the
    presence check.  With the legacy manifest readable, the read succeeds
    and the mapping holds an entry under a name exactly when the name is an
    immediate subdirectory of the registry root (of the app's python path)
    and the component built for it is present: it carries the marker file,
    or the manifest text contains its name (title-cased for a module, and
    stated for the module names of [is_ascii]).  Entries that are not
    directories are ignored. *)
Theorem components_filtered_by_presence :
  (forall (self : Apps) (w : World) bench text entries,
      _current_bench w = Some bench ->
      FS.read_text (fs w) (FS.joinpath (Bench_sites_path bench) "apps.txt")
      = Ret text ->
      FS.stat (fs w) (Apps_path self) = Ret (FS.Dir entries) ->
      exists self' l w' d,
        Apps_apps self w = (Ret (self', l), w')
        /\ app_dicts w' !! l = Some d
        /\ forall name,
             let path := FS.joinpath (Apps_path self) name in
             d !! name
             = if FS.is_dir (fs w) path
                  && (has_marker (fs w) (FS.joinpath path name)
                      || contains name text)
               then Some (App_init name path)
               else None)
  /\ (forall (self : App) (w : World) text entries,
        FS.read_text (fs w) (FS.joinpath (App_python_path self) "modules.txt")
        = Ret text ->
        FS.stat (fs w) (App_python_path self) = Ret (FS.Dir entries) ->
        exists self' l w' d,
          App_modules self w = (Ret (self', l), w')
          /\ module_dicts w' !! l = Some d
          /\ forall name,
               is_ascii name = true ->
               let path := FS.joinpath (App_python_path self) name in
               d !! name
               = if FS.is_dir (fs w) path
                    && (has_marker (fs w) path || contains (title name) text)
                 then Some (Module_init name path self)
                 else None).
Proof.
  split.
  - intros self w bench text entries Hb Ht Hd.
    destruct (Apps_apps_run self w bench text entries Hb Ht Hd) as [ns ->].
    do 4 eexists. split; [done|]. split; [apply lookup_insert_eq|].
    intros name path. subst path.
    rewrite (lookup_fill_listing (fs w) (Apps_path self) entries _ _ name Hd);
      [done|].
    unfold keeps_app. by intros [? _]%andb_true_iff.
  - intros self w text entries Ht Hd.
    destruct (App_modules_run self w text entries Ht Hd) as [ns ->].
    do 4 eexists. split; [done|]. split; [apply lookup_insert_eq|].
    intros name _ path. subst path.
    rewrite (lookup_fill_listing (fs w) (App_python_path self) entries _ _ name Hd);
      [done|].
    unfold keeps_module. by intros [? _]%andb_true_iff.
Qed.

Lemma components_filtered_by_presence_witness :
  (exists self' l w' d,
      Apps_apps sample_apps sample_world = (Ret (self', l), w')
      /\ app_dicts w' !! l = Some d
      /\ d !! "erp" = Some (App_init "erp" ["bench"; "apps"; "erp"])
      /\ d !! "foo" = None /\ d !! "README.md" = None)
  /\ (exists self' l w' d,
        App_modules sample_app sample_world = (Ret (self', l), w')
        /\ module_dicts w' !! l = Some d
        /\ d !! "hr" = None /\ d !! "hooks.py" = None
        /\ d !! "stock"
           = Some (Module_init "stock" ["bench"; "apps"; "erpnext"; "erpnext"; "stock"]
                     sample_app)).
Proof.
  destruct components_filtered_by_presence as [Happs Hmodules]. split.
  - destruct (Happs sample_apps sample_world sample_bench "erpnext"
                (list_to_map
                   [("erp", dir []); ("foo", dir []); ("README.md", FS.File "apps");
                    ("erpnext",
                     dir [("erpnext",
                           dir [(".frappe", FS.File "");
                                ("modules.txt", FS.File "Stock Entry");
                                ("hooks.py", FS.File "");
                                ("stock", dir [(".frappe", FS.File "")]);
                                ("stock_entry", dir []);
                                ("entry", dir []);
                                ("hr", dir [])])])])
                eq_refl eq_refl eq_refl)
      as (self' & l & w' & d & Hrun & Hl & Hd).
    exists self', l, w', d. split; [exact Hrun|]. split; [exact Hl|].
    split; [exact (Hd "erp") | split; [exact (Hd "foo") | exact (Hd "README.md")]].
  - destruct (Hmodules sample_app sample_world "Stock Entry"
                (list_to_map
                   [(".frappe", FS.File "");
                    ("modules.txt", FS.File "Stock Entry");
                    ("hooks.py", FS.File "");
                    ("stock", dir [(".frappe", FS.File "")]);
                    ("stock_entry", dir []);
                    ("entry", dir []);
                    ("hr", dir [])])
                eq_refl eq_refl)
      as (self' & l & w' & d & Hrun & Hl & Hd).
    exists self', l, w', d. split; [exact Hrun|]. split; [exact Hl|].
    split; [exact (Hd "hr" eq_refl)
           | split; [exact (Hd "hooks.py" eq_refl) | exact (Hd "stock" eq_refl)]].
Defined.

(** C2 (code bug): the scan is not memoized.  [hasattr(self, "__apps")]
    never finds the attribute, which is stored as [_Apps__apps]; so two
    reads of [Apps.apps] with no change of the file system return the same
    names, but each read scans the directory and returns a new dict
    object.  The same holds for [App.modules]. *)
Theorem components_rescanned_on_every_read :
  (forall (self : Apps) (w : World) bench text entries,
      _current_bench w = Some bench ->
      FS.read_text (fs w) (FS.joinpath (Bench_sites_path bench) "apps.txt")
      = Ret text ->
      FS.stat (fs w) (Apps_path self) = Ret (FS.Dir entries) ->
      exists self1 l1 w1 self2 l2 w2 d,
        Apps_apps self w = (Ret (self1, l1), w1)
        /\ Apps_apps self1 w1 = (Ret (self2, l2), w2)
        /\ app_dicts w2 !! l1 = Some d /\ app_dicts w2 !! l2 = Some d
        /\ l1 <> l2
        /\ scans w1 = S (scans w) /\ scans w2 = S (S (scans w)))
  /\ (forall (self : App) (w : World) text entries,
        FS.read_text (fs w) (FS.joinpath (App_python_path self) "modules.txt")
        = Ret text ->
        FS.stat (fs w) (App_python_path self) = Ret (FS.Dir entries) ->
        exists self1 l1 w1 self2 l2 w2 d,
          App_modules self w = (Ret (self1, l1), w1)
          /\ App_modules self1 w1 = (Ret (self2, l2), w2)
          /\ module_dicts w2 !! l1 = Some d /\ module_dicts w2 !! l2 = Some d
          /\ l1 <> l2
          /\ scans w1 = S (scans w) /\ scans w2 = S (S (scans w))).
Proof.
  split.
  - intros self w bench text entries Hb Ht Hd.
    destruct (Apps_apps_run self w bench text entries Hb Ht Hd) as [ns H1].
    rewrite H1.
    match goal with |- context [(Ret (?s1, _), ?w1)] =>
      destruct (Apps_apps_run s1 w1 bench text entries Hb Ht Hd) as [ns' H2]
    end.
    do 7 eexists. split; [done|]. split; [exact H2|]. cbn.
    split; [|split; [apply lookup_insert_eq|split; [lia|done]]].
    rewrite lookup_insert_ne by lia. apply lookup_insert_eq.
  - intros self w text entries Ht Hd.
    destruct (App_modules_run self w text entries Ht Hd) as [ns H1].
    rewrite H1.
    match goal with |- context [(Ret (?s1, _), ?w1)] =>
      destruct (App_modules_run s1 w1 text entries Ht Hd) as [ns' H2]
    end.
    do 7 eexists. split; [done|]. split; [exact H2|]. cbn.
    split; [|split; [apply lookup_insert_eq|split; [lia|done]]].
    rewrite lookup_insert_ne by lia. apply lookup_insert_eq.
Qed.

Lemma components_rescanned_on_every_read_witness :
  exists self1 l1 w1 self2 l2 w2 d,
    Apps_apps sample_apps sample_world = (Ret (self1, l1), w1)
    /\ Apps_apps self1 w1 = (Ret (self2, l2), w2)
    /\ app_dicts w2 !! l1 = Some d /\ app_dicts w2 !! l2 = Some d
    /\ l1 <> l2
    /\ scans w1 = S (scans sample_world) /\ scans w2 = S (S (scans sample_world)).
Proof.
  destruct components_rescanned_on_every_read as [Happs _].
  exact (Happs sample_apps sample_world sample_bench "erpnext"
           (list_to_map
              [("erp", dir []); ("foo", dir []); ("README.md", FS.File "apps");
               ("erpnext",
                dir [("erpnext",
                      dir [(".frappe", FS.File "");
                           ("modules.txt", FS.File "Stock Entry");
                           ("hooks.py", FS.File "");
                           ("stock", dir [(".frappe", FS.File "")]);
                           ("stock_entry", dir []);
                           ("entry", dir []);
                           ("hr", dir [])])])])
           eq_refl eq_refl eq_refl).
Defined.

(** C9: the legacy presence checks are substring tests on the manifest
    text.  For an app without the [.frappe] marker, [bool(app)] is whether
    its name occurs somewhere in the text of [sites/apps.txt]; for a module
    without the marker, [bool(module)] is whether its title-cased name
    occurs somewhere in the text of the owning app's [modules.txt] (stated
    for the module names of [is_ascii], on which [title] is
    [str.title()]). *)
Theorem legacy_presence_is_substring_match :
  (forall (a : App) (w : World) bench text,
      _current_bench w = Some bench ->
      FS.read_text (fs w) (FS.joinpath (Bench_sites_path bench) "apps.txt")
      = Ret text ->
      FS.exists_ (fs w) (FS.joinpath (App_python_path a) ".frappe") = false ->
      exists present w',
        __bool__ (IsApp a) w = (Ret present, w')
        /\ (present = true
            <-> exists before after, text = before +:+ App_name a +:+ after))
  /\ (forall (m : AppModule) (w : World) text,
        is_ascii (Module_name m) = true ->
        FS.read_text (fs w) (FS.joinpath (Module_app_python_path m) "modules.txt")
        = Ret text ->
        FS.exists_ (fs w) (FS.joinpath (Module_python_path m) ".frappe") = false ->
        exists present w',
          __bool__ (IsModule m) w = (Ret present, w')
          /\ (present = true
              <-> exists before after,
                  text = before +:+ title (Module_name m) +:+ after)).
Proof.
  split.
  - intros a w bench text Hb Ht Hm.
    destruct (bool_App_run a w bench text Hb Ht) as [ns ->].
    do 2 eexists. split; [done|].
    unfold has_marker. rewrite Hm, andb_false_r. cbn [orb].
    apply contains_substring.
  - intros m w text _ Ht Hm.
    destruct (bool_Module_run m w text Ht) as [ns ->].
    do 2 eexists. split; [done|].
    unfold has_marker. rewrite Hm, andb_false_r. cbn [orb].
    apply contains_substring.
Qed.

Lemma legacy_presence_is_substring_match_witness :
  (exists w', __bool__ (IsApp (App_init "erp" ["bench"; "apps"; "erp"])) sample_world
              = (Ret true, w'))
  /\ (exists w',
        __bool__ (IsModule (Module_init "entry"
                              ["bench"; "apps"; "erpnext"; "erpnext"; "entry"]
                              sample_app)) sample_world
        = (Ret true, w')).
Proof.
  destruct legacy_presence_is_substring_match as [Happ Hmodule]. split.
  - destruct (Happ (App_init "erp" ["bench"; "apps"; "erp"]) sample_world
                sample_bench "erpnext" eq_refl eq_refl eq_refl)
      as (present & w' & Hrun & Hiff).
    exists w'. rewrite Hrun.
    assert (present = true) as ->; [|done].
    apply Hiff. by exists "", "next".
  - destruct (Hmodule (Module_init "entry"
                         ["bench"; "apps"; "erpnext"; "erpnext"; "entry"] sample_app)
                sample_world "Stock Entry" eq_refl eq_refl eq_refl)
      as (present & w' & Hrun & Hiff).
    exists w'. rewrite Hrun.
    assert (present = true) as ->; [|done].
    apply Hiff. by exists "Stock ", "".
Defined.

(** ** Merged configuration *)

Lemma config_of_reload file store :
  config_of file (ConfigHandler_config file store).2 = config_of file store.
Proof.
  unfold config_of, ConfigHandler_config.
  destruct (_config store) as [loaded|] eqn:Hl;
    [destruct (_config_stale store) eqn:Hs|]; cbn; [done| |done].
  by rewrite Hl, Hs.
Qed.

Lemma config_stale_after_access file store :
  _config_stale (ConfigHandler_config file store).2 = false.
Proof.
  unfold ConfigHandler_config.
  destruct (_config store) as [loaded|];
    [destruct (_config_stale store) eqn:Hs|]; by cbn.
Qed.

Lemma config_of_stale file store :
  _config_stale store = true -> config_of file store = file.
Proof.
  intros H. unfold config_of, ConfigHandler_config. rewrite H.
  by destruct (_config store).
Qed.

(** A store that was stale serves, once it has been read, the file as it
    was at that read. *)
Lemma config_of_loaded file file' store :
  _config_stale store = true ->
  config_of file' (ConfigHandler_config file store).2 = file.
Proof.
  intros H. unfold config_of, ConfigHandler_config. rewrite H.
  by destruct (_config store).
Qed.

(** What [Site.config] does when the merge is computed. *)
Lemma Site_config_recomputes site_file sites_file self sites :
  negb (Site_hasattr self "_combined_config")
  || _config_stale (Site_store self) || _config_stale sites = true ->
  Site_config site_file sites_file self sites
  = (Ret ({| Site_name := Site_name self; Site_path := Site_path self;
             Site_store := (ConfigHandler_config site_file (Site_store self)).2;
             _combined_config :=
               Some (config_of site_file (Site_store self)
                     ∪ config_of sites_file sites) |},
          config_of site_file (Site_store self) ∪ config_of sites_file sites),
     (ConfigHandler_config sites_file sites).2).
Proof.
  intros H. unfold Site_config, Py.bind at 1, Py.get. rewrite H. unfold config_of.
  destruct (ConfigHandler_config site_file (Site_store self)) as [site_config store'].
  unfold Py.bind.
  by destruct (ConfigHandler_config sites_file sites) as [config sites'].
Qed.

(** What [Site.config] does when the cached merge is served. *)
Lemma Site_config_serves_cache site_file sites_file self sites cached :
  _combined_config self = Some cached ->
  _config_stale (Site_store self) = false ->
  _config_stale sites = false ->
  Site_config site_file sites_file self sites = (Ret (self, cached), sites).
Proof.
  intros Hc H1 H2.
  assert (Site_hasattr self "_combined_config" = true) as Hh
    by (unfold Site_hasattr, Site_dict_keys; by rewrite Hc).
  unfold Site_config, Py.bind at 1, Py.get. rewrite Hh, H1, H2. cbn [negb orb].
  unfold Py.bind, Py.ret. by rewrite Hc.
Qed.

(** C3 (code bug): the merged config of a tenant is meant to be the
    registry-wide mapping [A] overlaid by the tenant's own mapping [B], and
    that is what [Site.config] returns whenever it computes the merge:
    under every key of [B] the value of [B], under every other key what
    [A] holds.  But a cached merge is replaced only while a stale flag is
    up, and the flag of the registry store comes down with the first
    access that loads the store again.  Once the registry-wide file has
    changed from [A] to [A'] and the store was marked stale, the first
    tenant to read its config merges against [A']; a tenant that merged
    before keeps returning its merge over [A], while the registry store
    serves [A']. *)
Theorem merged_config_misses_registry_reload :
  (forall (site_file sites_file : ConfigType) (self : Site) (sites : ConfigHandler),
      merge_trigger self sites = true ->
      let A := config_of sites_file sites in
      let B := config_of site_file (Site_store self) in
      exists self' sites' merged,
        Site_config site_file sites_file self sites = (Ret (self', merged), sites')
        /\ merged = B ∪ A
        /\ forall k, merged !! k = match B !! k with
                                   | Some v => Some v
                                   | None => A !! k
                                   end)
  /\ (forall (A A' B B2 : ConfigType) n p n2 p2 (sites : ConfigHandler),
        config_of A sites = A ->
        B ∪ A' <> B ∪ A ->
        exists t m r u mu r' t' m' r'',
          Site_config B A (Site_init n p) sites = (Ret (t, m), r)
          /\ Site_config B2 A' (Site_init n2 p2) (mark_stale r) = (Ret (u, mu), r')
          /\ Site_config B A' t r' = (Ret (t', m'), r'')
          /\ m = B ∪ A
          /\ mu = B2 ∪ A'
          /\ (forall file, config_of file (Site_store t) = B)
          /\ (forall file, config_of file r' = A')
          /\ m' = B ∪ A
          /\ m' <> config_of B (Site_store t) ∪ config_of A' r').
Proof.
  split.
  - intros site_file sites_file self sites Htrigger A B.
    rewrite (Site_config_recomputes _ _ _ _ Htrigger).
    do 3 eexists. split; [reflexivity|]. split; [reflexivity|].
    intros k. fold A B. rewrite lookup_union. by destruct (B !! k), (A !! k).
  - intros A A' B B2 n p n2 p2 sites HA Hne.
    pose proof (Site_config_recomputes B A (Site_init n p) sites eq_refl) as H1.
    rewrite HA in H1.
    change (config_of B (Site_store (Site_init n p))) with B in H1.
    match type of H1 with
    | _ = (Ret (?t, ?m), ?r) =>
        pose proof (Site_config_recomputes B2 A' (Site_init n2 p2) (mark_stale r)
                      eq_refl) as H2;
        rewrite (config_of_stale A' (mark_stale r) eq_refl) in H2;
        change (config_of B2 (Site_store (Site_init n2 p2))) with B2 in H2;
        match type of H2 with
        | _ = (Ret (?u, ?mu), ?r') =>
            pose proof (Site_config_serves_cache B A' t r' m eq_refl
                          (config_stale_after_access _ _)
                          (config_stale_after_access _ _)) as H3;
            pose proof (fun file =>
                          config_of_loaded A' file (mark_stale r) eq_refl) as Hserved;
            exists t, m, r, u, mu, r', t, m, r'
        end
    end.
    split; [exact H1|]. split; [exact H2|]. split; [exact H3|].
    split; [reflexivity|]. split; [reflexivity|]. split; [intros file; reflexivity|].
    split; [exact Hserved|]. split; [reflexivity|].
    rewrite Hserved. intros Heq. apply Hne. symmetry. exact Heq.
Qed.

Lemma merged_config_misses_registry_reload_witness :
  (exists self' sites' merged,
      Site_config sample_site_config sample_sites_config
        (Site_init "site1" ["bench"; "sites"; "site1"])
        (ConfigHandler_init ["bench"; "sites"; "common_site_config.json"])
      = (Ret (self', merged), sites')
      /\ merged !! "a" = Some (JNum 1)
      /\ merged !! "b" = Some (JNum 2)
      /\ dom merged = {["a"; "b"]})
  /\ (exists t m r u mu r' t' m' r'',
        Site_config sample_site_config sample_sites_config
          (Site_init "site1" ["bench"; "sites"; "site1"])
          (ConfigHandler_init ["bench"; "sites"; "common_site_config.json"])
        = (Ret (t, m), r)
        /\ Site_config ∅ sample_sites_config_edited
             (Site_init "site2" ["bench"; "sites"; "site2"]) (mark_stale r)
           = (Ret (u, mu), r')
        /\ Site_config sample_site_config sample_sites_config_edited t r'
           = (Ret (t', m'), r'')
        /\ mu !! "a" = Some (JNum 7)
        /\ config_of sample_sites_config_edited r' !! "a" = Some (JNum 7)
        /\ m' !! "a" = Some (JNum 1)).
Proof.
  destruct merged_config_misses_registry_reload as [Hfresh Hmissed]. split.
  - destruct (Hfresh sample_site_config sample_sites_config
                (Site_init "site1" ["bench"; "sites"; "site1"])
                (ConfigHandler_init ["bench"; "sites"; "common_site_config.json"])
                eq_refl)
      as (self' & sites' & merged & Hrun & Hmerged & Hlookup).
    exists self', sites', merged. split; [exact Hrun|].
    split; [exact (Hlookup "a")|]. split; [exact (Hlookup "b")|].
    rewrite Hmerged. reflexivity.
  - destruct (Hmissed sample_sites_config sample_sites_config_edited
                sample_site_config ∅
                "site1" ["bench"; "sites"; "site1"]
                "site2" ["bench"; "sites"; "site2"]
                (ConfigHandler_init ["bench"; "sites"; "common_site_config.json"])
                eq_refl
                ltac:(intros H;
                      apply (f_equal (fun c : ConfigType => c !! "a")) in H;
                      vm_compute in H; discriminate H))
      as (t & m & r & u & mu & r' & t' & m' & r'' & H1 & H2 & H3 & _ & Hmu
          & _ & Hserved & Hm' & _).
    exists t, m, r, u, mu, r', t', m', r''.
    split; [exact H1|]. split; [exact H2|]. split; [exact H3|].
    split; [rewrite Hmu; reflexivity|].
    split; [rewrite Hserved; reflexivity|]. rewrite Hm'. reflexivity.
Defined.

(** ** The tenant registry *)

Lemma Sites_hasattr_private self : Sites_hasattr self "__sites" = false.
Proof. unfold Sites_hasattr, Sites_dict_keys. by destruct (_Sites__sites self). Qed.

Lemma process_run p n acc s :
  _Sites__sites (self_ s) = Some acc ->
  _process (FS.joinpath p n) s
  = (Ret tt,
     with_sites (Some (if keeps_site (disk s) p n then <[n := tenant p n]> acc
                       else acc)) s).
Proof.
  intros Hacc. unfold _process, Py.bind at 1, Py.get, keeps_site.
  rewrite name_joinpath.
  destruct (FS.is_dir (disk s) (FS.joinpath p n)
            && FS.exists_ (disk s) (FS.joinpath (FS.joinpath p n) "site_config.json")).
  - unfold setitem__sites, Py.bind, get__sites. by rewrite Hacc.
  - unfold Py.ret, with_sites. rewrite <- Hacc. by destruct s as [? ? []].
Qed.

Lemma for_each_process_run p names : forall acc s,
  _Sites__sites (self_ s) = Some acc ->
  for_each _process (FS.joinpath p <$> names) s
  = (Ret tt, with_sites (Some (fill (keeps_site (disk s) p) (tenant p) names acc)) s).
Proof.
  induction names as [|n names IH]; intros acc s Hacc.
  - cbn. unfold Py.ret, with_sites. rewrite <- Hacc. by destruct s as [? ? []].
  - cbn [fmap list_fmap for_each].
    rewrite (bind_Ret _ _ _ _ _ (process_run p n acc s Hacc)).
    by erewrite IH by (cbn; reflexivity).
Qed.

(** One read of [_sites]: the mapping is rebuilt from the file system and
    the active identifier, whatever the attribute held before. *)
Lemma _sites_run s :
  _sites s
  = match visible_sites s with
    | Ret d => (Ret d, with_sites (Some d) s)
    | Raise e => (Raise e, with_sites (Some ∅) s)
    end.
Proof.
  unfold _sites, Py.bind at 1, Py.get. rewrite Sites_hasattr_private. cbn [negb].
  unfold visible_sites.
  unfold Py.bind at 1. unfold Py.bind at 1. unfold set__sites at 1.
  unfold Py.bind at 1, site_name at 1. cbn [frappe_local_site_name].
  unfold with_sites.
  destruct (frappe_local_site_name s) as [n|] eqn:Hn; cbn [truthy default].
  - destruct (decide (n = SCOPE_ALL_SITES)) as [->|Hall].
    + rewrite (bool_decide_eq_true_2 (Some SCOPE_ALL_SITES = Some SCOPE_ALL_SITES))
        by done.
      rewrite (bool_decide_eq_true_2 (SCOPE_ALL_SITES = SCOPE_ALL_SITES)) by done.
      rewrite andb_false_r.
      unfold Py.bind at 1, Py.lift, FS.iterdir.
      destruct (FS.stat (disk s) (Sites_path (self_ s))) as [[text|entries]|e];
        [done| |done].
      erewrite for_each_process_run by (cbn; reflexivity). done.
    + rewrite (bool_decide_eq_false_2 (Some n = Some SCOPE_ALL_SITES)) by congruence.
      rewrite (bool_decide_eq_false_2 (n = SCOPE_ALL_SITES)) by done.
      destruct (decide (n = "")) as [->|Hne].
      * by cbn.
      * rewrite (bool_decide_eq_false_2 (n = "")) by done. cbn [negb andb].
        erewrite process_run by (cbn; reflexivity). done.
  - by cbn.
Qed.

Lemma Sites_getitem_run key s d :
  visible_sites s = Ret d ->
  Sites_getitem key s
  = (match d !! key with
     | Some site => Ret site
     | None => Raise BenchSiteNotLoadedError
     end,
     with_sites (Some d) s).
Proof.
  intros Hd. unfold Sites_getitem, Py.catch, Py.bind. rewrite _sites_run, Hd.
  by destruct (d !! key).
Qed.

Lemma site_unscoped s :
  truthy (frappe_local_site_name s) = false
  \/ frappe_local_site_name s = Some SCOPE_ALL_SITES ->
  site s = (Raise BenchNotScopedError, s).
Proof.
  intros H. unfold site, Py.bind, site_name.
  destruct H as [-> | ->]; [done|].
  rewrite (bool_decide_eq_true_2 (Some SCOPE_ALL_SITES = Some SCOPE_ALL_SITES)) by done.
  by rewrite orb_true_r.
Qed.

Lemma site_scoped s n :
  frappe_local_site_name s = Some n -> n <> "" -> n <> SCOPE_ALL_SITES ->
  site s = Sites_getitem n s.
Proof.
  intros Hn Hne Hall. unfold site, Py.bind, site_name. rewrite Hn. cbn [truthy default].
  rewrite (bool_decide_eq_false_2 (n = "")) by done.
  by rewrite (bool_decide_eq_false_2 (Some n = Some SCOPE_ALL_SITES)) by congruence.
Qed.

(** [scope(name)] on a registry that holds no [_Sites__sites] attribute:
    [del self.__sites] raises before anything is changed. *)
Lemma scope_no_attr s n :
  _Sites__sites (self_ s) = None ->
  scope (Some n) s = (Raise AttributeError, s).
Proof.
  intros H. unfold scope, Py.bind, del__sites, Py.bind, get__sites. by rewrite H.
Qed.

(** [scope(name)] on a registry that holds the attribute. *)
Lemma scope_attr s n d :
  _Sites__sites (self_ s) = Some d ->
  scope (Some n) s
  = if bool_decide (n = SCOPE_ALL_SITES)
    then (Raise BenchNotScopedError, with_site_name (Some n) (with_sites None s))
    else site (with_site_name (Some n) (with_sites None s)).
Proof.
  intros H. unfold scope, Py.bind at 1, del__sites, Py.bind at 1, get__sites.
  rewrite H. unfold set__sites, Py.bind, set_site_name, site_name.
  cbn [frappe_local_site_name].
  destruct (decide (n = SCOPE_ALL_SITES)) as [->|Hne].
  - by rewrite !bool_decide_eq_true_2.
  - rewrite (bool_decide_eq_false_2 (Some n = Some SCOPE_ALL_SITES)) by congruence.
    by rewrite (bool_decide_eq_false_2 (n = SCOPE_ALL_SITES)).
Qed.

Lemma names_of_values (d : gmap string Site) :
  (forall k v, d !! k = Some v -> Site_name v = k) ->
  Site_name <$> (map_to_list d).*2 = (map_to_list d).*1.
Proof.
  intros H. rewrite <- list_fmap_compose. apply Forall_fmap_ext, Forall_forall.
  intros [k v] Hin%elem_of_map_to_list. cbn. by apply H.
Qed.

(** What a full scan holds under a name. *)
Lemma lookup_full_scan root p entries k :
  FS.stat root p = Ret (FS.Dir entries) ->
  fill (keeps_site root p) (tenant p) (listing entries) ∅ !! k
  = if keeps_site root p k then Some (tenant p k) else None.
Proof.
  intros Hd. apply (lookup_fill_listing root p entries); [done|].
  unfold keeps_site. by intros [? _]%andb_true_iff.
Qed.

(** Iteration while scoped to all tenants, in full. *)
Lemma Sites_iter_all_run s entries :
  frappe_local_site_name s = Some SCOPE_ALL_SITES ->
  FS.stat (disk s) (Sites_path (self_ s)) = Ret (FS.Dir entries) ->
  let d := fill (keeps_site (disk s) (Sites_path (self_ s)))
             (tenant (Sites_path (self_ s))) (listing entries) ∅ in
  Sites_iter s = (Ret (map_to_list d).*2, with_sites (Some d) s).
Proof.
  intros Hn Hd d. unfold Sites_iter, Py.bind at 1, site_name. rewrite Hn.
  rewrite (bool_decide_eq_true_2 (Some SCOPE_ALL_SITES = Some SCOPE_ALL_SITES)) by done.
  unfold Py.bind. rewrite _sites_run. unfold visible_sites. rewrite Hn, Hd.
  by rewrite (bool_decide_eq_true_2 (SCOPE_ALL_SITES = SCOPE_ALL_SITES)).
Qed.

(** The tenants in the values of a full scan. *)
Lemma elem_of_full_scan root p entries site :
  FS.stat root p = Ret (FS.Dir entries) ->
  site ∈ (map_to_list (fill (keeps_site root p) (tenant p) (listing entries) ∅)).*2
  <-> exists n,
      let path := FS.joinpath p n in
      site = Site_init n path
      /\ FS.is_dir root path = true
      /\ FS.exists_ root (FS.joinpath path "site_config.json") = true.
Proof.
  intros Hd. split.
  - intros [[k v] [-> Hin%elem_of_map_to_list]]%list_elem_of_fmap.
    rewrite (lookup_full_scan root p entries k Hd) in Hin.
    destruct (keeps_site root p k) eqn:Hk; [|done].
    injection Hin as <-. exists k. cbn.
    unfold keeps_site in Hk. by apply andb_true_iff in Hk as [? ?].
  - intros (n & -> & H1 & H2). apply list_elem_of_fmap.
    exists (n, tenant p n). split; [done|].
    apply elem_of_map_to_list. rewrite (lookup_full_scan root p entries n Hd).
    unfold keeps_site. by rewrite H1, H2.
Qed.

(** C5: scoped to the all-sentinel, iteration yields exactly one tenant
    for every immediate subdirectory of the tenant root that holds
    [site_config.json], named after the directory, and nothing else:
    entries that are not directories and directories without the marker
    are left out. *)
Theorem iteration_scoped_to_all_is_exact (s : State) entries :
  frappe_local_site_name s = Some SCOPE_ALL_SITES ->
  FS.stat (disk s) (Sites_path (self_ s)) = Ret (FS.Dir entries) ->
  exists l s',
    Sites_iter s = (Ret l, s')
    /\ disk s' = disk s
    /\ NoDup (Site_name <$> l)
    /\ forall site,
         site ∈ l
         <-> exists n,
             let path := FS.joinpath (Sites_path (self_ s)) n in
             site = Site_init n path
             /\ FS.is_dir (disk s) path = true
             /\ FS.exists_ (disk s) (FS.joinpath path "site_config.json") = true.
Proof.
  intros Hn Hd. rewrite (Sites_iter_all_run s entries Hn Hd).
  do 2 eexists. split; [done|]. split; [done|]. split.
  - (* the names are the keys of the mapping, and those are distinct *)
    rewrite names_of_values; [apply NoDup_fst_map_to_list|].
    intros k v. rewrite (lookup_full_scan _ _ entries k Hd).
    destruct (keeps_site _ _ k); [|done]. by intros [= <-].
  - intros site. by apply elem_of_full_scan.
Qed.

Lemma iteration_scoped_to_all_is_exact_witness :
  exists l s',
    Sites_iter (with_site_name (Some SCOPE_ALL_SITES) sample_registry) = (Ret l, s')
    /\ (Site_init "site1" ["bench"; "sites"; "site1"] ∈ l)
    /\ (Site_init "site2" ["bench"; "sites"; "site2"] ∈ l)
    /\ (Site_init "assets" ["bench"; "sites"; "assets"] ∉ l)
    /\ (Site_init "apps.txt" ["bench"; "sites"; "apps.txt"] ∉ l).
Proof.
  destruct (iteration_scoped_to_all_is_exact
              (with_site_name (Some SCOPE_ALL_SITES) sample_registry)
              (list_to_map
                 [("apps.txt", FS.File "erpnext");
                  ("common_site_config.json", FS.File "");
                  ("assets", dir []);
                  ("site1", dir [("site_config.json", FS.File "")]);
                  ("site2", dir [("site_config.json", FS.File "")])])
              eq_refl eq_refl)
    as (l & s' & Hrun & _ & _ & Hl).
  exists l, s'. split; [exact Hrun|]. clear Hrun.
  split; [|split; [|split]].
  - apply Hl. exists "site1". vm_compute. repeat split; reflexivity.
  - apply Hl. exists "site2". vm_compute. repeat split; reflexivity.
  - intros (n & Heq & H1 & H2)%Hl. injection Heq as <- _.
    vm_compute in H2. discriminate H2.
  - intros (n & Heq & H1 & H2)%Hl. injection Heq as <- _.
    vm_compute in H1. discriminate H1.
Defined.

(** The sample states are states the code reaches. *)
Example sample_registry_read_reached :
  (Sites_len sample_registry).2 = sample_registry_read.
Proof. vm_compute. reflexivity. Qed.

Example sample_registry_site1_reached :
  ((Sites_len;;; scope (Some "site1")) sample_registry).2 = sample_registry_site1.
Proof. vm_compute. reflexivity. Qed.

(** The mapping read while scoped to one tenant. *)
Lemma visible_sites_scoped s n :
  frappe_local_site_name s = Some n -> n <> "" -> n <> SCOPE_ALL_SITES ->
  visible_sites s
  = Ret (if keeps_site (disk s) (Sites_path (self_ s)) n
         then <[n := tenant (Sites_path (self_ s)) n]> ∅
         else ∅).
Proof.
  intros Hn Hne Hall. unfold visible_sites. rewrite Hn.
  rewrite (bool_decide_eq_false_2 (n = SCOPE_ALL_SITES)) by done.
  by rewrite (bool_decide_eq_false_2 (n = "")) by done.
Qed.

(** [scope(n)] for a tenant directory with its marker, on a registry that
    holds the attribute. *)
Lemma scope_to_tenant s d n :
  _Sites__sites (self_ s) = Some d ->
  n <> "" -> n <> SCOPE_ALL_SITES ->
  keeps_site (disk s) (Sites_path (self_ s)) n = true ->
  scope (Some n) s
  = (Ret (tenant (Sites_path (self_ s)) n),
     with_site_name (Some n)
       (with_sites (Some (<[n := tenant (Sites_path (self_ s)) n]> ∅)) s)).
Proof.
  intros Hd Hne Hall Hk. rewrite (scope_attr s n d Hd).
  rewrite (bool_decide_eq_false_2 (n = SCOPE_ALL_SITES)) by done.
  rewrite (site_scoped _ n) by done.
  erewrite Sites_getitem_run by (by apply visible_sites_scoped).
  cbn [with_site_name with_sites disk self_ Sites_path]. rewrite Hk.
  by rewrite lookup_insert_eq.
Qed.

(** C4 (code bug): [scope(name)] does not always invalidate the mapping
    and set the identifier.  [del self.__sites] raises [AttributeError]
    whenever the registry holds no [_Sites__sites] attribute: right after
    construction, and right after [scope] with the all-sentinel.  The call
    then changes nothing, so after [scope(ALL)] followed by [scope(y)] the
    identifier is still the all-sentinel and the mapping next read is the
    full scan, whatever [y] is. *)
Theorem scope_raises_where_mapping_is_absent :
  (forall s n,
      _Sites__sites (self_ s) = None ->
      scope (Some n) s = (Raise AttributeError, s))
  /\ (forall s d y entries,
        _Sites__sites (self_ s) = Some d ->
        FS.stat (disk s) (Sites_path (self_ s)) = Ret (FS.Dir entries) ->
        exists s1 s2 d',
          scope (Some SCOPE_ALL_SITES) s = (Raise BenchNotScopedError, s1)
          /\ scope (Some y) s1 = (Raise AttributeError, s1)
          /\ frappe_local_site_name s1 = Some SCOPE_ALL_SITES
          /\ _sites s1 = (Ret d', s2)
          /\ forall k,
               let path := FS.joinpath (Sites_path (self_ s)) k in
               d' !! k
               = if FS.is_dir (disk s) path
                    && FS.exists_ (disk s) (FS.joinpath path "site_config.json")
                 then Some (Site_init k path)
                 else None).
Proof.
  split; [apply scope_no_attr|].
  intros s d y entries Hd Hstat.
  rewrite (scope_attr s _ d Hd), bool_decide_eq_true_2 by done.
  do 3 eexists. split; [done|]. split; [by apply scope_no_attr|].
  split; [done|]. rewrite _sites_run. unfold visible_sites.
  cbn [with_site_name with_sites disk self_ Sites_path frappe_local_site_name].
  rewrite bool_decide_eq_true_2 by done. rewrite Hstat.
  split; [done|]. intros k. by apply lookup_full_scan.
Qed.

Lemma scope_raises_where_mapping_is_absent_witness :
  scope (Some "site1") sample_registry = (Raise AttributeError, sample_registry)
  /\ exists s1 s2 d',
      scope (Some SCOPE_ALL_SITES) sample_registry_read
      = (Raise BenchNotScopedError, s1)
      /\ scope (Some "site2") s1 = (Raise AttributeError, s1)
      /\ frappe_local_site_name s1 = Some SCOPE_ALL_SITES
      /\ _sites s1 = (Ret d', s2)
      /\ d' !! "site1" = Some (Site_init "site1" ["bench"; "sites"; "site1"]).
Proof.
  destruct scope_raises_where_mapping_is_absent as [Hfresh Hall]. split.
  - exact (Hfresh sample_registry "site1" eq_refl).
  - destruct (Hall sample_registry_read ∅ "site2"
                (list_to_map
                   [("apps.txt", FS.File "erpnext");
                    ("common_site_config.json", FS.File "");
                    ("assets", dir []);
                    ("site1", dir [("site_config.json", FS.File "")]);
                    ("site2", dir [("site_config.json", FS.File "")])])
                eq_refl eq_refl)
      as (s1 & s2 & d' & H1 & H2 & H3 & H4 & H5).
    exists s1, s2, d'. split; [exact H1|]. split; [exact H2|].
    split; [exact H3|]. split; [exact H4|]. exact (H5 "site1").
Defined.

(** C6, as stated, fails: after [scope("")] the identifier is present
    (the empty string) and is not the all-sentinel, and [site] raises
    [BenchNotScopedError] all the same. *)
Lemma site_not_scoped_counterexample :
  let s := (scope (Some "") sample_registry_read).2 in
  frappe_local_site_name s = Some ""
  /\ frappe_local_site_name s <> None
  /\ frappe_local_site_name s <> Some SCOPE_ALL_SITES
  /\ (site s).1 = Raise BenchNotScopedError.
Proof. repeat split; try discriminate; vm_compute; reflexivity. Qed.

(** C6 (amended): [site] raises [BenchNotScopedError] exactly when the
    active identifier is absent, the empty string or the all-sentinel; on
    a registry that holds its tenant mapping, [scope(n)] for a tenant
    directory [n] with its config marker returns the tenant named [n], and
    so does [site] afterwards; iterating a registry whose identifier is
    absent or empty raises [BenchNotScopedError]. *)
Theorem site_accessor_needs_single_scope :
  (forall s,
      (site s).1 = Raise BenchNotScopedError
      <-> (frappe_local_site_name s = None
           \/ frappe_local_site_name s = Some ""
           \/ frappe_local_site_name s = Some SCOPE_ALL_SITES))
  /\ (forall s d n,
        _Sites__sites (self_ s) = Some d ->
        n <> "" -> n <> SCOPE_ALL_SITES ->
        FS.is_dir (disk s) (FS.joinpath (Sites_path (self_ s)) n) = true ->
        FS.exists_ (disk s)
          (FS.joinpath (FS.joinpath (Sites_path (self_ s)) n) "site_config.json")
        = true ->
        exists t s1 s2,
          scope (Some n) s = (Ret t, s1)
          /\ site s1 = (Ret t, s2)
          /\ t = Site_init n (FS.joinpath (Sites_path (self_ s)) n)
          /\ Site_name t = n)
  /\ (forall s,
        frappe_local_site_name s = None \/ frappe_local_site_name s = Some "" ->
        Sites_iter s = (Raise BenchNotScopedError, s)).
Proof.
  split; [|split].
  - intros s. split.
    + destruct (frappe_local_site_name s) as [n|] eqn:Hn; [|by left].
      destruct (decide (n = "")) as [->|Hne]; [by right; left|].
      destruct (decide (n = SCOPE_ALL_SITES)) as [->|Hall]; [by right; right|].
      rewrite (site_scoped s n Hn Hne Hall).
      erewrite Sites_getitem_run by (by apply visible_sites_scoped).
      intros H. exfalso. cbn [fst] in H.
      by destruct (_ !! n).
    + intros H. rewrite site_unscoped; [done|].
      destruct H as [-> | [-> | ->]]; [by left | by left | by right].
  - intros s d n Hd Hne Hall Hdir Hmarker.
    assert (keeps_site (disk s) (Sites_path (self_ s)) n = true) as Hk
      by (unfold keeps_site; by rewrite Hdir, Hmarker).
    rewrite (scope_to_tenant s d n Hd Hne Hall Hk).
    do 3 eexists. split; [done|]. split; [|done].
    rewrite (site_scoped _ n) by done.
    erewrite Sites_getitem_run by (by apply visible_sites_scoped).
    cbn [with_site_name with_sites disk self_ Sites_path]. rewrite Hk.
    by rewrite lookup_insert_eq.
  - intros s H. unfold Sites_iter, Py.bind, site_name.
    by destruct H as [-> | ->].
Qed.

Lemma site_accessor_needs_single_scope_witness :
  (site sample_registry).1 = Raise BenchNotScopedError
  /\ (exists t s1 s2,
        scope (Some "site1") sample_registry_read = (Ret t, s1)
        /\ site s1 = (Ret t, s2)
        /\ t = Site_init "site1" ["bench"; "sites"; "site1"]
        /\ Site_name t = "site1")
  /\ Sites_iter sample_registry = (Raise BenchNotScopedError, sample_registry).
Proof.
  destruct site_accessor_needs_single_scope as (Hsite & Hscope & Hiter).
  split; [|split].
  - apply Hsite. left. reflexivity.
  - exact (Hscope sample_registry_read ∅ "site1" eq_refl
             ltac:(discriminate) ltac:(discriminate) eq_refl eq_refl).
  - apply Hiter. left. reflexivity.
Defined.

(** ** [add_site] and [remove_site] *)

(** Creating directories leaves the registry object and the identifier
    alone. *)
Lemma for_each_mkdir_frame ps : forall s,
  self_ (for_each mkdir ps s).2 = self_ s
  /\ frappe_local_site_name (for_each mkdir ps s).2 = frappe_local_site_name s.
Proof.
  induction ps as [|p ps IH]; intros s; [done|].
  cbn [for_each]. unfold Py.bind, mkdir at 1 3.
  destruct (FS.mkdir (disk s) p) as [root'|e]; [|done].
  destruct (IH {| disk := root'; frappe_local_site_name := frappe_local_site_name s;
                  self_ := self_ s |}) as [H1 H2].
  by rewrite H1, H2.
Qed.

(** After the loop every path of the list is a directory. *)
Lemma for_each_mkdir_dirs ps : forall s s1,
  for_each mkdir ps s = (Ret tt, s1) ->
  (forall q, FS.is_dir (disk s) q = true -> FS.is_dir (disk s1) q = true)
  /\ (forall p, p ∈ ps -> FS.is_dir (disk s1) p = true).
Proof.
  induction ps as [|p ps IH]; intros s s1 H.
  - injection H as <-. split; [done|]. by intros p ?%elem_of_nil.
  - cbn [for_each] in H. unfold Py.bind, mkdir at 1 in H.
    destruct (FS.mkdir (disk s) p) as [root'|e] eqn:Hp; [|done].
    destruct (IH _ _ H) as [Hkeep Hnew]. cbn [disk] in Hkeep. split.
    + intros q Hq. apply Hkeep. by eapply mkdir_keeps_dirs.
    + intros p' [->|Hin]%elem_of_cons; [|by apply Hnew].
      apply Hkeep. by eapply mkdir_is_dir.
Qed.

(** C8 (code bug): [add_site] does not succeed in every state.  It writes
    to [self.__sites] without going through the property, so on a registry
    that holds no [_Sites__sites] attribute (right after construction, or
    after [scope] with the all-sentinel) it raises and inserts nothing:
    [AttributeError] once the directories are made.  Where the attribute
    exists and the directories can be made, the tenant is inserted, the
    identifier is unchanged and the five directories exist. *)
Theorem add_site_raises_where_mapping_is_absent :
  (forall s n,
      _Sites__sites (self_ s) = None ->
      exists e s',
        add_site n s = (Raise e, s')
        /\ _Sites__sites (self_ s') = None
        /\ ((for_each mkdir (skeleton (FS.joinpath (Sites_path (self_ s)) n)) s).1
            = Ret tt -> e = AttributeError))
  /\ (forall s d n s1,
        _Sites__sites (self_ s) = Some d ->
        for_each mkdir (skeleton (FS.joinpath (Sites_path (self_ s)) n)) s
        = (Ret tt, s1) ->
        add_site n s
        = (Ret tt,
           with_sites
             (Some (<[n := Site_init n (FS.joinpath (Sites_path (self_ s)) n)]> d))
             s1)
        /\ frappe_local_site_name s1 = frappe_local_site_name s
        /\ forall p, p ∈ skeleton (FS.joinpath (Sites_path (self_ s)) n) ->
                     FS.is_dir (disk s1) p = true).
Proof.
  split.
  - intros s n Hnone. unfold add_site, Py.bind at 1, Py.get.
    fold (skeleton (FS.joinpath (Sites_path (self_ s)) n)).
    destruct (for_each_mkdir_frame (skeleton (FS.joinpath (Sites_path (self_ s)) n)) s)
      as [Hself _].
    unfold Py.bind at 1.
    destruct (for_each mkdir (skeleton (FS.joinpath (Sites_path (self_ s)) n)) s)
      as [[[]|e] s1] eqn:Hrun; cbn [fst snd] in *.
    + unfold setitem__sites, Py.bind, get__sites. rewrite Hself, Hnone.
      exists AttributeError, s1. by rewrite Hself.
    + exists e, s1. by rewrite Hself.
  - intros s d n s1 Hd Hrun. unfold add_site, Py.bind at 1, Py.get.
    fold (skeleton (FS.joinpath (Sites_path (self_ s)) n)).
    destruct (for_each_mkdir_frame (skeleton (FS.joinpath (Sites_path (self_ s)) n)) s)
      as [Hself Hname].
    rewrite Hrun in Hself, Hname. cbn [snd] in *.
    rewrite (bind_Ret _ _ _ _ _ Hrun).
    unfold setitem__sites, Py.bind, get__sites, set__sites. rewrite Hself, Hd.
    split; [|split; [done|]].
    + unfold with_sites. by rewrite Hself.
    + by apply (for_each_mkdir_dirs _ s s1).
Qed.

Lemma add_site_raises_where_mapping_is_absent_witness :
  (exists e s',
      add_site "site3" sample_registry = (Raise e, s')
      /\ _Sites__sites (self_ s') = None
      /\ e = AttributeError)
  /\ (add_site "site3" sample_registry_read).1 = Ret tt.
Proof.
  destruct add_site_raises_where_mapping_is_absent as [Habsent Hpresent]. split.
  - destruct (Habsent sample_registry "site3" eq_refl) as (e & s' & Hrun & Hs' & He).
    exists e, s'. split; [exact Hrun|]. split; [exact Hs'|].
    apply He. vm_compute. reflexivity.
  - destruct (Hpresent sample_registry_read ∅ "site3"
                (for_each mkdir (skeleton ["bench"; "sites"; "site3"])
                   sample_registry_read).2
                eq_refl ltac:(vm_compute; reflexivity)) as (-> & _ & _).
    reflexivity.
Defined.

Example add_site_fresh_registry :
  let r := add_site "site3" sample_registry in
  r.1 = Raise AttributeError
  /\ FS.is_dir (disk r.2) ["bench"; "sites"; "site3"; "private"; "backups"] = true
  /\ FS.is_dir (disk sample_registry) ["bench"; "sites"; "site3"] = false.
Proof. repeat split; vm_compute; reflexivity. Qed.

(** C7 (code bug): [remove_site] does not keep the tenant out of later
    lookups and iteration.  It deletes the entry from the dict, touching
    nothing on disk, but the next read of [_sites] rebuilds the dict from
    the file system ([hasattr(self, "__sites")] never finds the attribute
    [_Sites__sites]), so a tenant whose directory is still there is found
    again. *)
Theorem remove_site_undone_by_next_read :
  forall s d n,
    _Sites__sites (self_ s) = Some d ->
    is_Some (d !! n) ->
    frappe_local_site_name s = Some n ->
    n <> "" -> n <> SCOPE_ALL_SITES ->
    FS.is_dir (disk s) (FS.joinpath (Sites_path (self_ s)) n) = true ->
    FS.exists_ (disk s)
      (FS.joinpath (FS.joinpath (Sites_path (self_ s)) n) "site_config.json")
    = true ->
    exists s1 s2,
      remove_site n s = (Ret tt, s1)
      /\ disk s1 = disk s
      /\ _Sites__sites (self_ s1) = Some (delete n d)
      /\ Sites_getitem n s1
         = (Ret (Site_init n (FS.joinpath (Sites_path (self_ s)) n)), s2)
      /\ Sites_iter s1
         = (Ret [Site_init n (FS.joinpath (Sites_path (self_ s)) n)], s2).
Proof.
  intros s d n Hd [t Ht] Hn Hne Hall Hdir Hmarker.
  assert (keeps_site (disk s) (Sites_path (self_ s)) n = true) as Hk
    by (unfold keeps_site; by rewrite Hdir, Hmarker).
  unfold remove_site, Py.bind, get__sites. rewrite Hd, Ht. unfold set__sites.
  do 2 eexists. split; [done|]. split; [done|]. split; [done|].
  assert (forall s1, disk s1 = disk s -> Sites_path (self_ s1) = Sites_path (self_ s) ->
                     frappe_local_site_name s1 = Some n ->
                     Sites_getitem n s1
                     = (Ret (tenant (Sites_path (self_ s)) n),
                        with_sites (Some (<[n := tenant (Sites_path (self_ s)) n]> ∅)) s1))
    as Hget.
  { intros s1 H1 H2 H3.
    erewrite Sites_getitem_run by (by apply visible_sites_scoped).
    rewrite H1, H2, Hk. by rewrite lookup_insert_eq. }
  split.
  - by rewrite Hget.
  - unfold Sites_iter, Py.bind at 1, site_name. cbn [frappe_local_site_name].
    rewrite Hn.
    rewrite (bool_decide_eq_false_2 (Some n = Some SCOPE_ALL_SITES)) by congruence.
    cbn [truthy default]. rewrite (bool_decide_eq_false_2 (n = "")) by done.
    cbn [negb]. unfold Py.bind. by rewrite Hget.
Qed.

Lemma remove_site_undone_by_next_read_witness :
  exists s1 s2,
    remove_site "site1" sample_registry_site1 = (Ret tt, s1)
    /\ disk s1 = disk sample_registry_site1
    /\ _Sites__sites (self_ s1) = Some (delete "site1" (<["site1" := tenant ["bench"; "sites"] "site1"]> ∅))
    /\ Sites_getitem "site1" s1
       = (Ret (Site_init "site1" ["bench"; "sites"; "site1"]), s2)
    /\ Sites_iter s1 = (Ret [Site_init "site1" ["bench"; "sites"; "site1"]], s2).
Proof.
  exact (remove_site_undone_by_next_read sample_registry_site1
           (<["site1" := tenant ["bench"; "sites"] "site1"]> ∅) "site1"
           eq_refl (ex_intro _ _ eq_refl) eq_refl
           ltac:(discriminate) ltac:(discriminate) eq_refl eq_refl).
Defined.

(** C10 (code bug): on a registry that holds its tenant mapping,
    [scope] with the all-sentinel raises [BenchNotScopedError] after it
    has deleted the mapping and set the identifier, and iteration then
    performs the full scan.  On a registry that holds no [_Sites__sites]
    attribute it raises [AttributeError] instead and changes nothing: an
    unscoped registry stays unscoped and iteration raises
    [BenchNotScopedError]. *)
Theorem scope_all_sentinel_raises :
  (forall s d entries,
      _Sites__sites (self_ s) = Some d ->
      FS.stat (disk s) (Sites_path (self_ s)) = Ret (FS.Dir entries) ->
      exists s1 l s2,
        scope (Some SCOPE_ALL_SITES) s = (Raise BenchNotScopedError, s1)
        /\ _Sites__sites (self_ s1) = None
        /\ frappe_local_site_name s1 = Some SCOPE_ALL_SITES
        /\ disk s1 = disk s
        /\ Sites_iter s1 = (Ret l, s2)
        /\ forall site,
             site ∈ l
             <-> exists n,
                 let path := FS.joinpath (Sites_path (self_ s)) n in
                 site = Site_init n path
                 /\ FS.is_dir (disk s) path = true
                 /\ FS.exists_ (disk s) (FS.joinpath path "site_config.json") = true)
  /\ (forall s,
        _Sites__sites (self_ s) = None ->
        scope (Some SCOPE_ALL_SITES) s = (Raise AttributeError, s)
        /\ (frappe_local_site_name s = None ->
            Sites_iter s = (Raise BenchNotScopedError, s))).
Proof.
  split.
  - intros s d entries Hd Hstat.
    rewrite (scope_attr s _ d Hd), bool_decide_eq_true_2 by done.
    set (s1 := with_site_name (Some SCOPE_ALL_SITES) (with_sites None s)).
    exists s1. do 2 eexists. do 4 (split; [done|]).
    split; [exact (Sites_iter_all_run s1 entries eq_refl Hstat)|].
    intros site. by apply (elem_of_full_scan (disk s) (Sites_path (self_ s)) entries).
  - intros s Hnone. split; [by apply scope_no_attr|].
    intros Hn. unfold Sites_iter, Py.bind, site_name. by rewrite Hn.
Qed.

Lemma scope_all_sentinel_raises_witness :
  (exists s1 l s2,
      scope (Some SCOPE_ALL_SITES) sample_registry_read
      = (Raise BenchNotScopedError, s1)
      /\ frappe_local_site_name s1 = Some SCOPE_ALL_SITES
      /\ Sites_iter s1 = (Ret l, s2)
      /\ (Site_init "site2" ["bench"; "sites"; "site2"] ∈ l))
  /\ scope (Some SCOPE_ALL_SITES) sample_registry
     = (Raise AttributeError, sample_registry)
  /\ Sites_iter sample_registry = (Raise BenchNotScopedError, sample_registry).
Proof.
  destruct scope_all_sentinel_raises as [Hpresent Habsent]. split.
  - destruct (Hpresent sample_registry_read ∅
                (list_to_map
                   [("apps.txt", FS.File "erpnext");
                    ("common_site_config.json", FS.File "");
                    ("assets", dir []);
                    ("site1", dir [("site_config.json", FS.File "")]);
                    ("site2", dir [("site_config.json", FS.File "")])])
                eq_refl eq_refl)
      as (s1 & l & s2 & H1 & _ & H3 & _ & H5 & H6).
    exists s1, l, s2. split; [exact H1|]. split; [exact H3|]. split; [exact H5|].
    clear H1 H3 H5. apply H6. exists "site2". vm_compute. repeat split; reflexivity.
  - destruct (Habsent sample_registry eq_refl) as [H1 H2].
    split; [exact H1 | exact (H2 eq_refl)].
Defined.

(** * Further properties *)

(** ** The presence check and its effects *)

(** X1: a component that carries the marker is present whatever the legacy
    manifests say: the check reads neither [_current_bench] nor a manifest,
    records no notice and cannot fail. *)
Theorem marked_component_is_present (self : FrappeComponent) (w : World) :
  FS.is_dir (fs w) (python_path self) = true ->
  FS.exists_ (fs w) (FS.joinpath (python_path self) ".frappe") = true ->
  __bool__ self w = (Ret true, w).
Proof.
  intros Hd He. unfold __bool__.
  rewrite (bind_Ret _ _ _ _ _ (_is_frappe_component_run _ _)).
  unfold has_marker. by rewrite Hd, He.
Qed.

Lemma marked_component_is_present_witness :
  __bool__ (IsApp sample_app) sample_world_no_bench
  = (Ret true, sample_world_no_bench).
Proof.
  exact (marked_component_is_present (IsApp sample_app) sample_world_no_bench
           eq_refl eq_refl).
Defined.

(** X2: without the marker the check depends on the legacy manifest and
    fails with it, leaving the world as it was: for an app, [NameError]
    while no bench was constructed and otherwise the error of reading
    [sites/apps.txt]; for a module, the error of reading the app's
    [modules.txt]. *)
Theorem unmarked_component_needs_manifest :
  (forall (a : App) (w : World),
      has_marker (fs w) (App_python_path a) = false ->
      _current_bench w = None ->
      __bool__ (IsApp a) w = (Raise NameError, w))
  /\ (forall (a : App) (w : World) bench e,
        has_marker (fs w) (App_python_path a) = false ->
        _current_bench w = Some bench ->
        FS.read_text (fs w) (FS.joinpath (Bench_sites_path bench) "apps.txt")
        = Raise e ->
        __bool__ (IsApp a) w = (Raise e, w))
  /\ (forall (m : AppModule) (w : World) e,
        has_marker (fs w) (Module_python_path m) = false ->
        FS.read_text (fs w) (FS.joinpath (Module_app_python_path m) "modules.txt")
        = Raise e ->
        __bool__ (IsModule m) w = (Raise e, w)).
Proof.
  split; [|split].
  - intros a w Hm Hb. unfold __bool__.
    rewrite (bind_Ret _ _ _ _ _ (_is_frappe_component_run _ _)). cbn [python_path].
    rewrite Hm. unfold _is_app_installed, Py.bind, current_bench. by rewrite Hb.
  - intros a w bench e Hm Hb Hr. unfold __bool__.
    rewrite (bind_Ret _ _ _ _ _ (_is_frappe_component_run _ _)). cbn [python_path].
    rewrite Hm. unfold _is_app_installed, Py.bind, current_bench, read_text.
    by rewrite Hb, Hr.
  - intros m w e Hm Hr. unfold __bool__.
    rewrite (bind_Ret _ _ _ _ _ (_is_frappe_component_run _ _)). cbn [python_path].
    rewrite Hm. unfold _is_module_registered, Py.bind, read_text. by rewrite Hr.
Qed.

Lemma unmarked_component_needs_manifest_witness :
  __bool__ (IsApp (App_init "foo" ["bench"; "apps"; "foo"])) sample_world_no_bench
  = (Raise NameError, sample_world_no_bench)
  /\ __bool__ (IsApp (App_init "foo" ["bench"; "apps"; "foo"])) sample_world_no_sites
     = (Raise FileNotFoundError, sample_world_no_sites)
  /\ __bool__ (IsModule (Module_init "x" ["bench"; "apps"; "erp"; "erp"; "x"]
                          (App_init "erp" ["bench"; "apps"; "erp"]))) sample_world
     = (Raise FileNotFoundError, sample_world).
Proof.
  destruct unmarked_component_needs_manifest as (H1 & H2 & H3). split; [|split].
  - exact (H1 (App_init "foo" ["bench"; "apps"; "foo"]) sample_world_no_bench
             eq_refl eq_refl).
  - exact (H2 (App_init "foo" ["bench"; "apps"; "foo"]) sample_world_no_sites
             {| Bench_path := ["bench"]; Bench_sites_path := ["bench"; "nowhere"] |}
             FileNotFoundError eq_refl eq_refl eq_refl).
  - exact (H3 (Module_init "x" ["bench"; "apps"; "erp"; "erp"; "x"]
                 (App_init "erp" ["bench"; "apps"; "erp"]))
             sample_world FileNotFoundError eq_refl eq_refl).
Defined.

(** X3: on the legacy path a deprecation notice is recorded exactly when
    the check succeeds, and nothing else in the world changes: for an
    unmarked app with a readable [apps.txt] one notice about the app's name
    if the text contains it, none otherwise (and likewise for a module and
    its title-cased name, for the module names of [is_ascii]). *)
Theorem legacy_presence_records_notice :
  (forall (a : App) (w : World) bench text,
      has_marker (fs w) (App_python_path a) = false ->
      _current_bench w = Some bench ->
      FS.read_text (fs w) (FS.joinpath (Bench_sites_path bench) "apps.txt")
      = Ret text ->
      __bool__ (IsApp a) w
      = (Ret (contains (App_name a) text),
         with_notices (if contains (App_name a) text
                       then notices w ++ [App_name a] else notices w) w))
  /\ (forall (m : AppModule) (w : World) text,
        is_ascii (Module_name m) = true ->
        has_marker (fs w) (Module_python_path m) = false ->
        FS.read_text (fs w) (FS.joinpath (Module_app_python_path m) "modules.txt")
        = Ret text ->
        __bool__ (IsModule m) w
        = (Ret (contains (title (Module_name m)) text),
           with_notices (if contains (title (Module_name m)) text
                         then notices w ++ [title (Module_name m)] else notices w) w)).
Proof.
  split.
  - intros a w bench text Hm Hb Hr. unfold __bool__.
    rewrite (bind_Ret _ _ _ _ _ (_is_frappe_component_run _ _)). cbn [python_path].
    rewrite Hm. unfold _is_app_installed, Py.bind, current_bench, read_text.
    rewrite Hb, Hr. destruct (contains (App_name a) text); [done|].
    unfold Py.ret, with_notices. by destruct w.
  - intros m w text _ Hm Hr. unfold __bool__.
    rewrite (bind_Ret _ _ _ _ _ (_is_frappe_component_run _ _)). cbn [python_path].
    rewrite Hm. unfold _is_module_registered, Py.bind, read_text.
    rewrite Hr. destruct (contains (title (Module_name m)) text); [done|].
    unfold Py.ret, with_notices. by destruct w.
Qed.

Lemma legacy_presence_records_notice_witness :
  (__bool__ (IsApp (App_init "erp" ["bench"; "apps"; "erp"])) sample_world).1
  = Ret true
  /\ notices (__bool__ (IsApp (App_init "erp" ["bench"; "apps"; "erp"])) sample_world).2
     = ["erp"]
  /\ notices (__bool__ (IsApp (App_init "foo" ["bench"; "apps"; "foo"])) sample_world).2
     = []
  /\ notices (__bool__ (IsModule (Module_init "entry"
                                    ["bench"; "apps"; "erpnext"; "erpnext"; "entry"]
                                    sample_app)) sample_world).2
     = ["Entry"].
Proof.
  destruct legacy_presence_records_notice as [Happ Hmodule].
  rewrite (Happ (App_init "erp" ["bench"; "apps"; "erp"]) sample_world sample_bench
             "erpnext" eq_refl eq_refl eq_refl).
  rewrite (Happ (App_init "foo" ["bench"; "apps"; "foo"]) sample_world sample_bench
             "erpnext" eq_refl eq_refl eq_refl).
  rewrite (Hmodule (Module_init "entry"
                      ["bench"; "apps"; "erpnext"; "erpnext"; "entry"] sample_app)
             sample_world "Stock Entry" eq_refl eq_refl eq_refl).
  repeat split.
Defined.

(** ** Reading and indexing the component registry *)

Lemma bind_Raise_eq {St A B} (c : Py.t St A) (k : A -> Py.t St B) s e s' :
  c s = (Raise e, s') -> Py.bind c k s = (Raise e, s').
Proof. intros H. unfold Py.bind. by rewrite H. Qed.

Lemma bool_marked_run (self : FrappeComponent) (w : World) :
  has_marker (fs w) (python_path self) = true ->
  __bool__ self w = (Ret true, w).
Proof.
  intros H. unfold __bool__.
  rewrite (bind_Ret _ _ _ _ _ (_is_frappe_component_run _ _)). by rewrite H.
Qed.

Lemma apps_comprehension_fails p e w :
  (forall a, has_marker (fs w) (App_python_path a) = false ->
             __bool__ (IsApp a) w = (Raise e, w)) ->
  forall names acc n,
    n ∈ names ->
    FS.is_dir (fs w) (FS.joinpath p n) = true ->
    has_marker (fs w) (FS.joinpath (FS.joinpath p n) n) = false ->
    apps_comprehension (FS.joinpath p <$> names) acc w = (Raise e, w).
Proof.
  intros Hfail names. induction names as [|n0 names IH]; intros acc n Hin Hd Hm.
  - by apply elem_of_nil in Hin.
  - cbn [fmap list_fmap apps_comprehension]. unfold Py.bind at 1, is_dir at 1.
    rewrite name_joinpath.
    destruct (FS.is_dir (fs w) (FS.joinpath p n0)) eqn:Hd0.
    + destruct (has_marker (fs w) (FS.joinpath (FS.joinpath p n0) n0)) eqn:Hm0.
      * rewrite (bind_Ret _ _ _ _ _
                   (bool_marked_run (IsApp (App_init n0 (FS.joinpath p n0))) w Hm0)).
        apply elem_of_cons in Hin as [->|Hin]; [congruence | by eapply IH].
      * by rewrite (bind_Raise_eq (__bool__ _) _ w e w
                     (Hfail (App_init n0 (FS.joinpath p n0)) Hm0)).
    + apply elem_of_cons in Hin as [->|Hin]; [congruence | by eapply IH].
Qed.

(** The legacy check of an unmarked app fails with the manifest. *)
Lemma bool_App_fails (a : App) (w : World) e :
  (_current_bench w = None /\ e = NameError
   \/ exists bench,
        _current_bench w = Some bench
        /\ FS.read_text (fs w) (FS.joinpath (Bench_sites_path bench) "apps.txt")
           = Raise e) ->
  has_marker (fs w) (App_python_path a) = false ->
  __bool__ (IsApp a) w = (Raise e, w).
Proof.
  intros H Hm. unfold __bool__.
  rewrite (bind_Ret _ _ _ _ _ (_is_frappe_component_run _ _)). cbn [python_path].
  rewrite Hm. unfold _is_app_installed, Py.bind, current_bench, read_text.
  destruct H as [[-> ->] | (bench & -> & ->)]; done.
Qed.

(** X4: reading [Apps.apps] is all or nothing.  If the registry root lists
    a single directory without the marker while the legacy manifest cannot
    be consulted (no bench constructed yet: [NameError]; [sites/apps.txt]
    unreadable: the error of the read), the property raises that error
    after one directory scan; no dict is created and no notice recorded,
    however many marked apps the root holds. *)
Theorem apps_read_fails_as_a_whole (self : Apps) (w : World) entries n e :
  FS.stat (fs w) (Apps_path self) = Ret (FS.Dir entries) ->
  FS.is_dir (fs w) (FS.joinpath (Apps_path self) n) = true ->
  has_marker (fs w) (FS.joinpath (FS.joinpath (Apps_path self) n) n) = false ->
  (_current_bench w = None /\ e = NameError
   \/ exists bench,
        _current_bench w = Some bench
        /\ FS.read_text (fs w) (FS.joinpath (Bench_sites_path bench) "apps.txt")
           = Raise e) ->
  exists w',
    Apps_apps self w = (Raise e, w')
    /\ app_dicts w' = app_dicts w /\ next_loc w' = next_loc w
    /\ scans w' = S (scans w) /\ notices w' = notices w.
Proof.
  intros Hstat Hd Hm Hmanifest.
  unfold Apps_apps. rewrite Apps_hasattr_private. cbn [negb].
  unfold Py.bind at 1. unfold Py.bind at 1. unfold iterdir at 1, FS.iterdir.
  rewrite Hstat.
  set (w1 := {| fs := fs w; scans := S (scans w) |}).
  assert (apps_comprehension (FS.joinpath (Apps_path self) <$> listing entries) ∅ w1
          = (Raise e, w1)) as Hrun.
  { apply (apps_comprehension_fails (Apps_path self) e w1) with (n := n);
      [|by eapply is_dir_child_listed|done|done].
    intros a. by apply bool_App_fails. }
  unfold listing in Hrun. rewrite (bind_Raise_eq _ _ _ _ _ Hrun).
  by exists w1.
Qed.

Lemma apps_read_fails_as_a_whole_witness :
  exists w',
    Apps_apps sample_apps sample_world_no_bench = (Raise NameError, w')
    /\ app_dicts w' = app_dicts sample_world_no_bench
    /\ next_loc w' = next_loc sample_world_no_bench
    /\ scans w' = S (scans sample_world_no_bench)
    /\ notices w' = notices sample_world_no_bench.
Proof.
  exact (apps_read_fails_as_a_whole sample_apps sample_world_no_bench
           (list_to_map
              [("erp", dir []); ("foo", dir []); ("README.md", FS.File "apps");
               ("erpnext",
                dir [("erpnext",
                      dir [(".frappe", FS.File "");
                           ("modules.txt", FS.File "Stock Entry");
                           ("hooks.py", FS.File "");
                           ("stock", dir [(".frappe", FS.File "")]);
                           ("stock_entry", dir []);
                           ("entry", dir []);
                           ("hr", dir [])])])])
           "foo" NameError eq_refl eq_refl eq_refl (or_introl (conj eq_refl eq_refl))).
Defined.

(** X5: a registry root (or python path of an app) that is no directory
    makes the property raise the error of [iterdir]: [FileNotFoundError]
    where nothing is there, [NotADirectoryError] where a file is.  The
    scan is counted, no dict is created. *)
Theorem scan_of_missing_root_raises :
  (forall (self : Apps) (w : World) e,
      FS.iterdir (fs w) (Apps_path self) = Raise e ->
      exists w',
        Apps_apps self w = (Raise e, w')
        /\ app_dicts w' = app_dicts w /\ scans w' = S (scans w)
        /\ (e = FileNotFoundError \/ e = NotADirectoryError))
  /\ (forall (self : App) (w : World) e,
        FS.iterdir (fs w) (App_python_path self) = Raise e ->
        exists w',
          App_modules self w = (Raise e, w')
          /\ module_dicts w' = module_dicts w /\ scans w' = S (scans w)
          /\ (e = FileNotFoundError \/ e = NotADirectoryError)).
Proof.
  assert (forall p root e, FS.stat root p = Raise e ->
                           e = FileNotFoundError \/ e = NotADirectoryError) as Hstat.
  { induction p as [|c p IH]; intros root e; cbn; [done|].
    destruct root as [text|m]; [intros [= <-]; by right|].
    destruct (m !! c) as [child|]; [apply IH|]. intros [= <-]. by left. }
  assert (forall root p e, FS.iterdir root p = Raise e ->
                           e = FileNotFoundError \/ e = NotADirectoryError) as Herr.
  { intros root p e. unfold FS.iterdir.
    destruct (FS.stat root p) as [[text|m]|e'] eqn:Hs; [|done|].
    - intros [= <-]. by right.
    - intros [= <-]. by eapply Hstat. }
  split.
  - intros self w e He. unfold Apps_apps. rewrite Apps_hasattr_private. cbn [negb].
    unfold Py.bind at 1. unfold Py.bind at 1. unfold iterdir at 1. rewrite He.
    eexists. split; [done|]. repeat split. by eapply Herr.
  - intros self w e He. unfold App_modules. rewrite App_hasattr_private. cbn [negb].
    unfold Py.bind at 1. unfold Py.bind at 1. unfold iterdir at 1. rewrite He.
    eexists. split; [done|]. repeat split. by eapply Herr.
Qed.

Lemma scan_of_missing_root_raises_witness :
  (exists w', App_modules (App_init "foo" ["bench"; "apps"; "foo"]) sample_world
              = (Raise FileNotFoundError, w'))
  /\ (exists w', Apps_apps (Apps_init ["bench"; "sites"; "apps.txt"]) sample_world
                 = (Raise NotADirectoryError, w')).
Proof.
  destruct scan_of_missing_root_raises as [Happs Hmodules]. split.
  - destruct (Hmodules (App_init "foo" ["bench"; "apps"; "foo"]) sample_world
                FileNotFoundError eq_refl) as (w' & H & _).
    by exists w'.
  - destruct (Happs (Apps_init ["bench"; "sites"; "apps.txt"]) sample_world
                NotADirectoryError eq_refl) as (w' & H & _).
    by exists w'.
Defined.

Lemma keys_of_values {V} (f : V -> string) (d : gmap string V) :
  (forall k v, d !! k = Some v -> f v = k) ->
  f <$> (map_to_list d).*2 = (map_to_list d).*1.
Proof.
  intros H. rewrite <- list_fmap_compose. apply Forall_fmap_ext, Forall_forall.
  intros [k v] Hin%elem_of_map_to_list. cbn. by apply H.
Qed.

(** [Apps.apps] followed by the dereference of the dict it returns. *)
Lemma Apps_apps_dict_run {A} (k : Apps * loc -> gmap string App -> Py.t World A)
    self w bench text entries :
  _current_bench w = Some bench ->
  FS.read_text (fs w) (FS.joinpath (Bench_sites_path bench) "apps.txt") = Ret text ->
  FS.stat (fs w) (Apps_path self) = Ret (FS.Dir entries) ->
  exists w',
    (r <- Apps_apps self;; d <- app_dict r.2;; k r d) w
    = k ({| Apps_path := Apps_path self; _Apps__apps := Some (next_loc w) |}, next_loc w)
        (fill (keeps_app (fs w) text (Apps_path self))
           (fun n => App_init n (FS.joinpath (Apps_path self) n)) (listing entries) ∅)
        w'
    /\ fs w' = fs w /\ _current_bench w' = _current_bench w
    /\ scans w' = S (scans w) /\ next_loc w' = S (next_loc w).
Proof.
  intros Hb Ht Hd.
  destruct (Apps_apps_run self w bench text entries Hb Ht Hd) as [ns Hrun].
  rewrite (bind_Ret _ _ _ _ _ Hrun). unfold Py.bind, app_dict. cbn.
  rewrite lookup_insert_eq. cbn. eexists. by split.
Qed.

(** X6: indexing the registry by name.  With the legacy manifest readable,
    [apps[key]] returns the app built for the subdirectory [key] exactly
    when that subdirectory exists and is present (marker, or name found in
    the manifest text), and raises [KeyError] otherwise: for a name that
    is not listed, for a file, and for a directory that is not present.
    Every lookup scans the root once more. *)
Theorem apps_lookup_by_name (self : Apps) (w : World) bench text entries key :
  _current_bench w = Some bench ->
  FS.read_text (fs w) (FS.joinpath (Bench_sites_path bench) "apps.txt") = Ret text ->
  FS.stat (fs w) (Apps_path self) = Ret (FS.Dir entries) ->
  exists self' w',
    let path := FS.joinpath (Apps_path self) key in
    Apps_getitem self key w
    = (if FS.is_dir (fs w) path
          && (has_marker (fs w) (FS.joinpath path key) || contains key text)
       then Ret (self', App_init key path)
       else Raise KeyError,
       w')
    /\ scans w' = S (scans w).
Proof.
  intros Hb Ht Hd. unfold Apps_getitem.
  destruct (Apps_apps_dict_run
              (fun r d => match d !! key with
                          | Some app => Py.ret (r.1, app)
                          | None => Py.raise KeyError
                          end) self w bench text entries Hb Ht Hd)
    as (w' & -> & _ & _ & Hscans & _).
  rewrite (lookup_fill_listing (fs w) (Apps_path self) entries _ _ key Hd);
    [|unfold keeps_app; by intros [? _]%andb_true_iff].
  exists {| Apps_path := Apps_path self; _Apps__apps := Some (next_loc w) |}, w'.
  split; [|done]. unfold keeps_app.
  by destruct (FS.is_dir (fs w) (FS.joinpath (Apps_path self) key)
               && (has_marker (fs w) (FS.joinpath (FS.joinpath (Apps_path self) key) key)
                   || contains key text)).
Qed.

Lemma apps_lookup_by_name_witness :
  (exists self' w',
      Apps_getitem sample_apps "erpnext" sample_world
      = (Ret (self', App_init "erpnext" ["bench"; "apps"; "erpnext"]), w'))
  /\ (exists w', Apps_getitem sample_apps "foo" sample_world = (Raise KeyError, w'))
  /\ (exists w', Apps_getitem sample_apps "README.md" sample_world
                 = (Raise KeyError, w'))
  /\ (exists w', Apps_getitem sample_apps "hrms" sample_world = (Raise KeyError, w')).
Proof.
  pose proof (fun key =>
    apps_lookup_by_name sample_apps sample_world sample_bench "erpnext"
      (list_to_map
         [("erp", dir []); ("foo", dir []); ("README.md", FS.File "apps");
          ("erpnext",
           dir [("erpnext",
                 dir [(".frappe", FS.File "");
                      ("modules.txt", FS.File "Stock Entry");
                      ("hooks.py", FS.File "");
                      ("stock", dir [(".frappe", FS.File "")]);
                      ("stock_entry", dir []);
                      ("entry", dir []);
                      ("hr", dir [])])])])
      key eq_refl eq_refl eq_refl) as H.
  split; [|split; [|split]].
  - destruct (H "erpnext") as (self' & w' & Hrun & _). exists self', w'. exact Hrun.
  - destruct (H "foo") as (self' & w' & Hrun & _). exists w'. exact Hrun.
  - destruct (H "README.md") as (self' & w' & Hrun & _). exists w'. exact Hrun.
  - destruct (H "hrms") as (self' & w' & Hrun & _). exists w'. exact Hrun.
Defined.

(** X7: [len(apps)] and iteration agree.  With the legacy manifest
    readable, iterating the registry yields one app per present
    subdirectory, under distinct names, and [len] is the number of apps
    that iteration yields. *)
Theorem apps_len_matches_iteration (self : Apps) (w : World) bench text entries :
  _current_bench w = Some bench ->
  FS.read_text (fs w) (FS.joinpath (Bench_sites_path bench) "apps.txt") = Ret text ->
  FS.stat (fs w) (Apps_path self) = Ret (FS.Dir entries) ->
  exists self1 n w1 self2 l w2,
    Apps_len self w = (Ret (self1, n), w1)
    /\ Apps_iter self1 w1 = (Ret (self2, l), w2)
    /\ length l = n
    /\ NoDup (App_name <$> l)
    /\ forall a,
         a ∈ l
         <-> exists name,
             let path := FS.joinpath (Apps_path self) name in
             a = App_init name path
             /\ FS.is_dir (fs w) path = true
             /\ (has_marker (fs w) (FS.joinpath path name) = true
                 \/ contains name text = true).
Proof.
  intros Hb Ht Hd.
  destruct (Apps_apps_dict_run (fun r d => Py.ret (r.1, size d))
              self w bench text entries Hb Ht Hd)
    as (w1 & H1 & Hfs & Hbench & _ & _).
  set (self1 := {| Apps_path := Apps_path self; _Apps__apps := Some (next_loc w) |})
    in *.
  assert (_current_bench w1 = Some bench) as Hb1 by (by rewrite Hbench).
  assert (FS.read_text (fs w1) (FS.joinpath (Bench_sites_path bench) "apps.txt")
          = Ret text) as Ht1 by (by rewrite Hfs).
  assert (FS.stat (fs w1) (Apps_path self1) = Ret (FS.Dir entries)) as Hd1
    by (by rewrite Hfs).
  destruct (Apps_apps_dict_run (fun r d => Py.ret (r.1, (map_to_list d).*2))
              self1 w1 bench text entries Hb1 Ht1 Hd1)
    as (w2 & H2 & _).
  rewrite Hfs in H2. cbn [Apps_path self1] in H2.
  set (d := fill _ _ _ _) in *.
  assert (forall k, d !! k = if keeps_app (fs w) text (Apps_path self) k
                             then Some (App_init k (FS.joinpath (Apps_path self) k))
                             else None) as Hlookup.
  { intros k. unfold d.
    rewrite (lookup_fill_listing (fs w) (Apps_path self) entries _ _ k Hd); [done|].
    unfold keeps_app. by intros [? _]%andb_true_iff. }
  exists self1, (size d), w1,
    {| Apps_path := Apps_path self; _Apps__apps := Some (next_loc w1) |},
    (map_to_list d).*2, w2.
  split; [exact H1|]. split; [exact H2|]. split; [|split].
  - by rewrite length_fmap, length_map_to_list.
  - rewrite keys_of_values; [apply NoDup_fst_map_to_list|].
    intros k v. rewrite Hlookup. destruct (keeps_app _ _ _ k); [|done].
    by intros [= <-].
  - intros a. split.
    + intros [[k v] [-> Hin%elem_of_map_to_list]]%list_elem_of_fmap.
      rewrite Hlookup in Hin. destruct (keeps_app _ _ _ k) eqn:Hk; [|done].
      injection Hin as <-. exists k. cbn. unfold keeps_app in Hk.
      apply andb_true_iff in Hk as [? ?%orb_true_iff]. done.
    + intros (name & -> & Hdir & Hpresent). apply list_elem_of_fmap.
      exists (name, App_init name (FS.joinpath (Apps_path self) name)).
      split; [done|]. apply elem_of_map_to_list. rewrite Hlookup.
      unfold keeps_app. rewrite Hdir. cbn. apply orb_true_iff in Hpresent.
      by rewrite Hpresent.
Qed.

Lemma apps_len_matches_iteration_witness :
  exists self1 w1 self2 l w2,
    Apps_len sample_apps sample_world = (Ret (self1, 2), w1)
    /\ Apps_iter self1 w1 = (Ret (self2, l), w2)
    /\ length l = 2.
Proof.
  destruct (apps_len_matches_iteration sample_apps sample_world sample_bench "erpnext"
              (list_to_map
                 [("erp", dir []); ("foo", dir []); ("README.md", FS.File "apps");
                  ("erpnext",
                   dir [("erpnext",
                         dir [(".frappe", FS.File "");
                              ("modules.txt", FS.File "Stock Entry");
                              ("hooks.py", FS.File "");
                              ("stock", dir [(".frappe", FS.File "")]);
                              ("stock_entry", dir []);
                              ("entry", dir []);
                              ("hr", dir [])])])])
              eq_refl eq_refl eq_refl)
    as (self1 & n & w1 & self2 & l & w2 & H1 & H2 & H3 & _).
  assert (match (Apps_len sample_apps sample_world).1 with
          | Ret r => r.2
          | Raise _ => 0
          end = n) as Hn by (rewrite H1; reflexivity).
  vm_compute in Hn. rewrite <- Hn in H1, H3.
  exists self1, w1, self2, l, w2.
  split; [exact H1|]. split; [exact H2|exact H3].
Defined.

(** ** Lookup, length and scoping of the tenant registry *)

(** X8: lookup sees only what the scope admits.  Scoped to the tenant
    [n], an identifier that is a single path component, [sites[key]]
    returns the tenant exactly when [key] is [n] and the directory [n]
    with its [site_config.json] exists; any other key raises
    [BenchSiteNotLoadedError], also when a tenant directory of that name is
    on disk.  Disk and identifier are untouched. *)
Theorem lookup_limited_to_scope (s : State) n key :
  frappe_local_site_name s = Some n ->
  single_component n = true -> n <> SCOPE_ALL_SITES ->
  exists s',
    let path := FS.joinpath (Sites_path (self_ s)) n in
    Sites_getitem key s
    = (if bool_decide (key = n)
          && FS.is_dir (disk s) path
          && FS.exists_ (disk s) (FS.joinpath path "site_config.json")
       then Ret (Site_init n path)
       else Raise BenchSiteNotLoadedError,
       s')
    /\ disk s' = disk s
    /\ frappe_local_site_name s' = frappe_local_site_name s.
Proof.
  intros Hn Hsc Hall.
  assert (n <> "") as Hne by (intros ->; discriminate Hsc).
  erewrite Sites_getitem_run by (by apply visible_sites_scoped).
  exists (with_sites
            (Some (if keeps_site (disk s) (Sites_path (self_ s)) n
                   then <[n := tenant (Sites_path (self_ s)) n]> ∅ else ∅)) s).
  split; [|done]. f_equal. unfold keeps_site.
  destruct (FS.is_dir (disk s) (FS.joinpath (Sites_path (self_ s)) n)
            && FS.exists_ (disk s)
                 (FS.joinpath (FS.joinpath (Sites_path (self_ s)) n) "site_config.json"))
    eqn:Hk.
  - destruct (decide (key = n)) as [->|Hkey].
    + rewrite lookup_insert_eq, bool_decide_eq_true_2 by done.
      apply andb_true_iff in Hk as [-> ->]. done.
    + rewrite lookup_insert_ne, lookup_empty by done.
      by rewrite bool_decide_eq_false_2.
  - rewrite lookup_empty. rewrite <- andb_assoc, Hk. by rewrite andb_false_r.
Qed.

Lemma lookup_limited_to_scope_witness :
  (exists s', Sites_getitem "site1" sample_registry_site1
              = (Ret (Site_init "site1" ["bench"; "sites"; "site1"]), s'))
  /\ (exists s', Sites_getitem "site2" sample_registry_site1
                 = (Raise BenchSiteNotLoadedError, s'))
  /\ FS.is_dir (disk sample_registry_site1) ["bench"; "sites"; "site2"] = true.
Proof.
  split; [|split; [|reflexivity]].
  - destruct (lookup_limited_to_scope sample_registry_site1 "site1" "site1" eq_refl
                eq_refl ltac:(discriminate)) as (s' & H & _).
    exists s'. exact H.
  - destruct (lookup_limited_to_scope sample_registry_site1 "site1" "site2" eq_refl
                eq_refl ltac:(discriminate)) as (s' & H & _).
    exists s'. exact H.
Defined.

(** X9: an unscoped registry is empty.  While the identifier is absent or
    the empty string, every lookup raises [BenchSiteNotLoadedError] and
    [len] is 0, whatever tenants are on disk and whatever the registry
    held before; the read leaves the registry with an empty mapping. *)
Theorem unscoped_registry_is_empty (s : State) key :
  frappe_local_site_name s = None \/ frappe_local_site_name s = Some "" ->
  Sites_getitem key s = (Raise BenchSiteNotLoadedError, with_sites (Some ∅) s)
  /\ Sites_len s = (Ret 0, with_sites (Some ∅) s).
Proof.
  intros H.
  assert (visible_sites s = Ret ∅) as Hv.
  { unfold visible_sites. by destruct H as [-> | ->]. }
  split.
  - by rewrite (Sites_getitem_run key s ∅ Hv).
  - unfold Sites_len, Py.bind. by rewrite _sites_run, Hv.
Qed.

Lemma unscoped_registry_is_empty_witness :
  (Sites_getitem "site1" sample_registry).1 = Raise BenchSiteNotLoadedError
  /\ (Sites_len sample_registry).1 = Ret 0.
Proof.
  destruct (unscoped_registry_is_empty sample_registry "site1" (or_introl eq_refl))
    as [-> ->].
  split; reflexivity.
Defined.

(** X10: scoping to a tenant that is not on disk fails half-way.  On a
    registry that holds its mapping, [scope(n)] for a name, a single path
    component, without a tenant directory (or without [site_config.json]
    in it) raises [BenchSiteNotLoadedError], yet the identifier is [n]
    afterwards, [scoped] reads true and the mapping is empty. *)
Theorem scope_to_missing_tenant (s : State) d n :
  _Sites__sites (self_ s) = Some d ->
  single_component n = true -> n <> SCOPE_ALL_SITES ->
  FS.is_dir (disk s) (FS.joinpath (Sites_path (self_ s)) n)
  && FS.exists_ (disk s)
       (FS.joinpath (FS.joinpath (Sites_path (self_ s)) n) "site_config.json")
  = false ->
  exists s',
    scope (Some n) s = (Raise BenchSiteNotLoadedError, s')
    /\ frappe_local_site_name s' = Some n
    /\ scoped s' = (Ret true, s')
    /\ _Sites__sites (self_ s') = Some ∅
    /\ disk s' = disk s.
Proof.
  intros Hd Hsc Hall Hk.
  assert (n <> "") as Hne by (intros ->; discriminate Hsc).
  rewrite (scope_attr s n d Hd).
  rewrite (bool_decide_eq_false_2 (n = SCOPE_ALL_SITES)) by done.
  rewrite (site_scoped _ n) by done.
  erewrite Sites_getitem_run by (by apply visible_sites_scoped).
  cbn [with_site_name with_sites disk self_ Sites_path]. unfold keeps_site.
  rewrite Hk, lookup_empty. eexists. split; [done|]. split; [done|].
  split; [|done]. unfold scoped, Py.bind, site_name. cbn.
  rewrite (bool_decide_eq_false_2 (n = "")) by done.
  by rewrite (bool_decide_eq_false_2 (Some n = Some SCOPE_ALL_SITES)) by congruence.
Qed.

Lemma scope_to_missing_tenant_witness :
  exists s',
    scope (Some "assets") sample_registry_read = (Raise BenchSiteNotLoadedError, s')
    /\ frappe_local_site_name s' = Some "assets"
    /\ scoped s' = (Ret true, s')
    /\ _Sites__sites (self_ s') = Some ∅
    /\ disk s' = disk sample_registry_read.
Proof.
  exact (scope_to_missing_tenant sample_registry_read ∅ "assets" eq_refl
           eq_refl ltac:(discriminate) eq_refl).
Defined.

(** X11: rescoping between tenants.  On a registry that holds its
    mapping, [scope(x)] followed by [scope(y)] for two tenant directories
    with their markers returns the tenant [y]; afterwards the identifier is
    [y] and the mapping holds [y] and nothing else, so [x] is no longer
    found when [x] and [y] differ. *)
Theorem rescoping_replaces_the_mapping (s : State) d x y :
  _Sites__sites (self_ s) = Some d ->
  x <> "" -> x <> SCOPE_ALL_SITES -> y <> "" -> y <> SCOPE_ALL_SITES ->
  keeps_site (disk s) (Sites_path (self_ s)) x = true ->
  keeps_site (disk s) (Sites_path (self_ s)) y = true ->
  exists tx s1 ty s2,
    scope (Some x) s = (Ret tx, s1)
    /\ scope (Some y) s1 = (Ret ty, s2)
    /\ ty = Site_init y (FS.joinpath (Sites_path (self_ s)) y)
    /\ frappe_local_site_name s2 = Some y
    /\ _Sites__sites (self_ s2) = Some {[y := ty]}
    /\ (x <> y -> exists s3,
          Sites_getitem x s2 = (Raise BenchSiteNotLoadedError, s3)).
Proof.
  intros Hd Hx1 Hx2 Hy1 Hy2 Hkx Hky.
  rewrite (scope_to_tenant s d x Hd Hx1 Hx2 Hkx).
  set (s1 := with_site_name (Some x) (with_sites _ s)).
  assert (scope (Some y) s1
          = (Ret (tenant (Sites_path (self_ s)) y),
             with_site_name (Some y)
               (with_sites (Some (<[y := tenant (Sites_path (self_ s)) y]> ∅)) s1)))
    as H2 by (by apply (scope_to_tenant s1 _ y eq_refl)).
  do 4 eexists. split; [done|]. split; [exact H2|]. split; [done|].
  split; [done|]. split; [done|].
  intros Hxy. eexists.
  erewrite Sites_getitem_run by (by apply visible_sites_scoped).
  cbn [with_site_name with_sites disk self_ Sites_path s1]. rewrite Hky.
  by rewrite lookup_insert_ne, lookup_empty.
Qed.

Lemma rescoping_replaces_the_mapping_witness :
  exists tx s1 ty s2,
    scope (Some "site1") sample_registry_read = (Ret tx, s1)
    /\ scope (Some "site2") s1 = (Ret ty, s2)
    /\ ty = Site_init "site2" ["bench"; "sites"; "site2"]
    /\ frappe_local_site_name s2 = Some "site2"
    /\ _Sites__sites (self_ s2) = Some {["site2" := ty]}
    /\ exists s3, Sites_getitem "site1" s2 = (Raise BenchSiteNotLoadedError, s3).
Proof.
  destruct (rescoping_replaces_the_mapping sample_registry_read ∅ "site1" "site2"
              eq_refl ltac:(discriminate) ltac:(discriminate)
              ltac:(discriminate) ltac:(discriminate) eq_refl eq_refl)
    as (tx & s1 & ty & s2 & H1 & H2 & H3 & H4 & H5 & H6).
  exists tx, s1, ty, s2. split; [exact H1|]. split; [exact H2|].
  split; [exact H3|]. split; [exact H4|]. split; [exact H5|].
  apply H6. discriminate.
Defined.

(** X12: [scoped] tells whether [site] can address a tenant.  It reads
    true exactly when [site] does not raise [BenchNotScopedError]; and then
    [site] either returns the tenant named by the identifier or raises
    [BenchSiteNotLoadedError]. *)
Theorem scoped_iff_site_is_addressable (s : State) :
  exists b,
    scoped s = (Ret b, s)
    /\ (b = true <-> (site s).1 <> Raise BenchNotScopedError)
    /\ (b = true ->
        exists n,
          frappe_local_site_name s = Some n
          /\ ((site s).1 = Ret (Site_init n (FS.joinpath (Sites_path (self_ s)) n))
              \/ (site s).1 = Raise BenchSiteNotLoadedError)).
Proof.
  unfold scoped, Py.bind, site_name, Py.ret. eexists. split; [done|].
  destruct (frappe_local_site_name s) as [n|] eqn:Hn.
  - destruct (decide (n = "")) as [->|Hne].
    { rewrite site_unscoped by (left; by rewrite Hn). cbn. by split. }
    destruct (decide (n = SCOPE_ALL_SITES)) as [->|Hall].
    { rewrite site_unscoped by (by right). cbn. by split. }
    cbn [truthy]. rewrite (bool_decide_eq_false_2 (n = "")) by done.
    rewrite (bool_decide_eq_false_2 (Some n = Some SCOPE_ALL_SITES)) by congruence.
    rewrite (site_scoped s n Hn Hne Hall).
    erewrite Sites_getitem_run by (by apply visible_sites_scoped).
    cbn [fst negb andb]. destruct (keeps_site _ _ n).
    + rewrite lookup_insert_eq. split; [done|]. intros _. exists n. split; [done|by left].
    + rewrite lookup_empty. split; [done|]. intros _. exists n. split; [done|by right].
  - rewrite site_unscoped by (left; by rewrite Hn). cbn. by split.
Qed.

Lemma scoped_iff_site_is_addressable_witness :
  scoped sample_registry_site1 = (Ret true, sample_registry_site1)
  /\ (site sample_registry_site1).1 <> Raise BenchNotScopedError.
Proof.
  destruct (scoped_iff_site_is_addressable sample_registry_site1)
    as (b & Hs & Hiff & _).
  assert (match (scoped sample_registry_site1).1 with
          | Ret x => x
          | Raise _ => false
          end = b) as Hb by (rewrite Hs; reflexivity).
  vm_compute in Hb. subst b. split; [exact Hs | exact (proj1 Hiff eq_refl)].
Defined.

(** X13: [len] agrees with iteration.  Whenever iterating the registry
    succeeds, [len(sites)] is the number of tenants it yields and leaves
    the registry in the same state. *)
Theorem len_matches_iteration (s : State) l s' :
  Sites_iter s = (Ret l, s') ->
  Sites_len s = (Ret (length l), s').
Proof.
  unfold Sites_iter, Sites_len, Py.bind at 1, site_name.
  destruct (frappe_local_site_name s) as [n|] eqn:Hn; [|done].
  destruct (decide (n = SCOPE_ALL_SITES)) as [->|Hall].
  - rewrite bool_decide_eq_true_2 by done. unfold Py.bind. rewrite _sites_run.
    destruct (visible_sites s) as [d|e]; [|done].
    intros [= <- <-]. by rewrite length_fmap, length_map_to_list.
  - rewrite (bool_decide_eq_false_2 (Some n = Some SCOPE_ALL_SITES)) by congruence.
    cbn [truthy default]. destruct (decide (n = "")) as [->|Hne]; [done|].
    rewrite (bool_decide_eq_false_2 (n = "")) by done. cbn [negb].
    unfold Py.bind.
    erewrite Sites_getitem_run by (by apply visible_sites_scoped).
    rewrite _sites_run, (visible_sites_scoped s n Hn Hne Hall).
    destruct (keeps_site _ _ n).
    + rewrite lookup_insert_eq. intros [= <- <-].
      rewrite map_size_insert_None by apply lookup_empty. by rewrite map_size_empty.
    + by rewrite lookup_empty.
Qed.

Lemma len_matches_iteration_witness :
  exists s',
    Sites_len (with_site_name (Some SCOPE_ALL_SITES) sample_registry) = (Ret 2, s')
    /\ Sites_len sample_registry_site1 = (Ret 1, sample_registry_site1).
Proof.
  eexists. split.
  - apply (len_matches_iteration (with_site_name (Some SCOPE_ALL_SITES) sample_registry)
             [Site_init "site1" ["bench"; "sites"; "site1"];
              Site_init "site2" ["bench"; "sites"; "site2"]]).
    vm_compute. reflexivity.
  - apply (len_matches_iteration sample_registry_site1
             [Site_init "site1" ["bench"; "sites"; "site1"]]).
    vm_compute. reflexivity.
Defined.

(** ** Adding and removing tenants *)

(** [mkdir] of an existing directory changes nothing. *)
Lemma mkdir_existing p : forall root,
  FS.is_dir root p = true -> FS.mkdir root p = Ret root.
Proof.
  induction p as [|c p IH]; intros [text|m] H; try done. cbn.
  unfold FS.is_dir in H. cbn in H.
  destruct (m !! c) as [child|] eqn:Hc; [|done]. cbn.
  rewrite (IH child H). by rewrite insert_id.
Qed.

(** [mkdir] below a file fails. *)
Lemma mkdir_below_file p : forall root text c q,
  FS.stat root p = Ret (FS.File text) ->
  FS.mkdir root (p ++ c :: q) = Raise NotADirectoryError.
Proof.
  induction p as [|x p IH]; intros root text c q H.
  - cbn in H. injection H as ->. done.
  - destruct root as [t|m]; [done|]. cbn in *.
    destruct (m !! x) as [child|] eqn:Hx; [|done]. cbn.
    by rewrite (IH child text c q H).
Qed.



(** What a successful [add_site] did. *)
Lemma add_site_inv s d n s1 :
  _Sites__sites (self_ s) = Some d ->
  add_site n s = (Ret tt, s1) ->
  exists s0,
    for_each mkdir (skeleton (FS.joinpath (Sites_path (self_ s)) n)) s = (Ret tt, s0)
    /\ s1 = with_sites
              (Some (<[n := Site_init n (FS.joinpath (Sites_path (self_ s)) n)]> d)) s0
    /\ self_ s0 = self_ s
    /\ frappe_local_site_name s0 = frappe_local_site_name s.
Proof.
  intros Hd. unfold add_site, Py.bind at 1, Py.get.
  fold (skeleton (FS.joinpath (Sites_path (self_ s)) n)).
  destruct (for_each_mkdir_frame (skeleton (FS.joinpath (Sites_path (self_ s)) n)) s)
    as [Hself Hname].
  unfold Py.bind at 1.
  destruct (for_each mkdir (skeleton (FS.joinpath (Sites_path (self_ s)) n)) s)
    as [[[]|e] s0] eqn:Hrun; [|done]. cbn [snd] in *.
  unfold setitem__sites, Py.bind, get__sites, set__sites. rewrite Hself, Hd.
  intros [= <-]. exists s0. by repeat split.
Qed.



Lemma for_each_mkdir_existing ps : forall s,
  (forall p, p ∈ ps -> FS.is_dir (disk s) p = true) ->
  for_each mkdir ps s = (Ret tt, s).
Proof.
  induction ps as [|p ps IH]; intros s H; [done|].
  cbn [for_each]. unfold Py.bind, mkdir at 1.
  rewrite (mkdir_existing p (disk s)) by (apply H, list_elem_of_here).
  assert ({| disk := disk s; frappe_local_site_name := frappe_local_site_name s;
             self_ := self_ s |} = s) as -> by (by destruct s).
  apply IH. intros p' Hin. by apply H, list_elem_of_further.
Qed.

(** X15: [add_site] can be repeated.  The directories are made with
    [exist_ok=True], so calling [add_site(n)] again right after a
    successful call succeeds and leaves disk, mapping and identifier
    exactly as the first call left them. *)
Theorem add_site_is_idempotent (s : State) d n s1 :
  _Sites__sites (self_ s) = Some d ->
  add_site n s = (Ret tt, s1) ->
  add_site n s1 = (Ret tt, s1).
Proof.
  intros Hd Hadd.
  destruct (add_site_inv s d n s1 Hd Hadd) as (s0 & Hrun & -> & Hself & Hname).
  destruct (for_each_mkdir_dirs _ _ _ Hrun) as [_ Hdirs].
  set (s1 := with_sites _ s0).
  assert (for_each mkdir (skeleton (FS.joinpath (Sites_path (self_ s)) n)) s1
          = (Ret tt, s1)) as Hagain by (by apply for_each_mkdir_existing).
  unfold add_site, Py.bind at 1, Py.get.
  assert (Sites_path (self_ s1) = Sites_path (self_ s)) as -> by (cbn; by rewrite Hself).
  fold (skeleton (FS.joinpath (Sites_path (self_ s)) n)).
  rewrite (bind_Ret _ _ _ _ _ Hagain).
  unfold setitem__sites, Py.bind, get__sites, set__sites. cbn.
  by rewrite insert_insert_eq.
Qed.

Lemma add_site_is_idempotent_witness :
  add_site "site3" (add_site "site3" sample_registry_read).2
  = (Ret tt, (add_site "site3" sample_registry_read).2).
Proof.
  apply (add_site_is_idempotent sample_registry_read ∅ "site3" _ eq_refl).
  vm_compute. reflexivity.
Defined.

(** X16: a file in the way stops [add_site] before anything is changed.
    Where the path of the new tenant is an existing file (a name such as
    [apps.txt] below the tenant root), the first [mkdir] raises
    [NotADirectoryError]: no directory is made and nothing is inserted. *)
Theorem add_site_on_a_file_raises (s : State) n text :
  FS.stat (disk s) (FS.joinpath (Sites_path (self_ s)) n) = Ret (FS.File text) ->
  add_site n s = (Raise NotADirectoryError, s).
Proof.
  intros H. unfold add_site, Py.bind at 1, Py.get.
  cbn [for_each]. unfold Py.bind at 1. unfold Py.bind at 1. unfold mkdir at 1.
  by rewrite (mkdir_below_file _ _ text "public" ["files"] H).
Qed.

Lemma add_site_on_a_file_raises_witness :
  add_site "apps.txt" sample_registry_read
  = (Raise NotADirectoryError, sample_registry_read).
Proof.
  exact (add_site_on_a_file_raises sample_registry_read "apps.txt" "erpnext" eq_refl).
Defined.

(** X17: [remove_site] only edits the mapping.  On a registry that holds
    its mapping the call returns, the mapping is the old one without the
    name, disk and identifier are untouched, a second call changes nothing
    more, and for a name that was not in the mapping the mapping is the
    same as before. *)
Theorem remove_site_only_edits_the_mapping (s : State) d n :
  _Sites__sites (self_ s) = Some d ->
  exists s1,
    remove_site n s = (Ret tt, s1)
    /\ _Sites__sites (self_ s1) = Some (delete n d)
    /\ disk s1 = disk s
    /\ frappe_local_site_name s1 = frappe_local_site_name s
    /\ Sites_path (self_ s1) = Sites_path (self_ s)
    /\ remove_site n s1 = (Ret tt, s1)
    /\ (d !! n = None -> s1 = s).
Proof.
  intros Hd. unfold remove_site at 1, Py.bind, get__sites. rewrite Hd.
  destruct (d !! n) as [t|] eqn:Hn.
  - eexists. split; [done|]. cbn. repeat split; [|done].
    unfold remove_site, Py.bind, get__sites. cbn. by rewrite lookup_delete_eq.
  - exists s. split; [done|]. rewrite delete_id by done.
    repeat split; try done.
    unfold remove_site, Py.bind, get__sites. by rewrite Hd, Hn.
Qed.

Lemma remove_site_only_edits_the_mapping_witness :
  exists s1,
    remove_site "site1" sample_registry_site1 = (Ret tt, s1)
    /\ _Sites__sites (self_ s1)
       = Some (delete "site1" (<["site1" := tenant ["bench"; "sites"] "site1"]> ∅))
    /\ disk s1 = disk sample_registry_site1
    /\ remove_site "site1" s1 = (Ret tt, s1).
Proof.
  destruct (remove_site_only_edits_the_mapping sample_registry_site1
              (<["site1" := tenant ["bench"; "sites"] "site1"]> ∅) "site1" eq_refl)
    as (s1 & H1 & H2 & H3 & _ & _ & H6 & _).
  exists s1. split; [exact H1|]. split; [exact H2|]. split; [exact H3|exact H6].
Defined.

(** ** Caching of the merged configuration *)

(** X18: the merged config is cached.  Whatever state a tenant and the
    registry store are in, [config] returns a mapping, and an immediate
    second access returns the same mapping and changes nothing, also when
    the files on disk have changed in between: without a stale flag the
    files are not read again. *)
Theorem merged_config_is_cached
    (site_file sites_file : ConfigType) (self : Site) (sites : ConfigHandler) :
  exists self' sites' merged,
    Site_config site_file sites_file self sites = (Ret (self', merged), sites')
    /\ forall site_file' sites_file',
         Site_config site_file' sites_file' self' sites'
         = (Ret (self', merged), sites').
Proof.
  destruct (negb (Site_hasattr self "_combined_config")
            || _config_stale (Site_store self) || _config_stale sites) eqn:Htrigger.
  - rewrite (Site_config_recomputes _ _ _ _ Htrigger).
    do 3 eexists. split; [done|]. intros f1 f2.
    apply Site_config_serves_cache; [done|apply config_stale_after_access..].
  - apply orb_false_iff in Htrigger as [[Hhas Hs1]%orb_false_iff Hs2].
    unfold Site_hasattr, Site_dict_keys in Hhas.
    destruct (_combined_config self) as [cached|] eqn:Hc; [|done].
    exists self, sites, cached. split; intros; by apply Site_config_serves_cache.
Qed.

(** X19: a stale flag makes [config] merge again.  With the tenant's own
    store marked stale the merge takes the tenant's file as it is now; with
    the registry's store marked stale it takes the registry's file as it is
    now; in both cases a cached merge is discarded. *)
Theorem stale_store_is_merged_again
    (site_file sites_file : ConfigType) (self : Site) (sites : ConfigHandler) :
  (exists self' sites',
      Site_config site_file sites_file (Site_mark_stale self) sites
      = (Ret (self', site_file ∪ config_of sites_file sites), sites'))
  /\ (exists self' sites',
        Site_config site_file sites_file self (mark_stale sites)
        = (Ret (self', config_of site_file (Site_store self) ∪ sites_file), sites')
        /\ _config_stale sites' = false).
Proof.
  split.
  - rewrite Site_config_recomputes by (cbn; by rewrite orb_true_r).
    rewrite (config_of_stale site_file (Site_store (Site_mark_stale self))) by done.
    by do 2 eexists.
  - rewrite Site_config_recomputes by (cbn; by rewrite orb_true_r).
    rewrite (config_of_stale sites_file (mark_stale sites)) by done.
    do 2 eexists. split; [done|]. apply config_stale_after_access.
Qed.

(** X20: the stale flag of the registry store is used up by the first
    tenant that reads.  Two tenants have merged against the registry file
    [A]; the registry store is then marked stale with the file changed to
    [A']: the first tenant to read [config] merges against [A'] and clears
    the flag, and the second tenant keeps serving its old merge. *)
Theorem registry_staleness_reaches_one_tenant
    (A A' B1 B2 : ConfigType) n1 p1 n2 p2 (sites : ConfigHandler) :
  exists t1 m1 r1 t2 m2 r2 t1' r3 t2' r4,
    Site_config B1 A (Site_init n1 p1) sites = (Ret (t1, m1), r1)
    /\ Site_config B2 A (Site_init n2 p2) r1 = (Ret (t2, m2), r2)
    /\ Site_config B1 A' t1 (mark_stale r2) = (Ret (t1', B1 ∪ A'), r3)
    /\ Site_config B2 A' t2 r3 = (Ret (t2', m2), r4)
    /\ m2 = B2 ∪ config_of A sites.
Proof.
  pose proof (Site_config_recomputes B1 A (Site_init n1 p1) sites eq_refl) as H1.
  match type of H1 with
  | _ = (Ret (?t1, ?m1), ?r1) =>
      pose proof (Site_config_recomputes B2 A (Site_init n2 p2) r1 eq_refl) as H2;
      match type of H2 with
      | _ = (Ret (?t2, ?m2), ?r2) =>
          assert (negb (Site_hasattr t1 "_combined_config")
                  || _config_stale (Site_store t1) || _config_stale (mark_stale r2)
                  = true) as Htrigger by (cbn; by rewrite orb_true_r);
          pose proof (Site_config_recomputes B1 A' t1 (mark_stale r2) Htrigger) as H3;
          match type of H3 with
          | _ = (Ret (?t1', _), ?r3) =>
              pose proof (Site_config_serves_cache B2 A' t2 r3 m2 eq_refl
                            (config_stale_after_access _ _)
                            (config_stale_after_access _ _)) as H4;
              exists t1, m1, r1, t2, m2, r2, t1', r3, t2, r3
          end
      end
  end.
  split; [exact H1|]. split; [exact H2|]. split; [|split; [exact H4|]].
  - rewrite H3. rewrite (config_of_stale A') by done.
    cbn [Site_store]. rewrite config_of_reload. done.
  - by rewrite config_of_reload.
Qed.

(** ** Identity of tenants *)

(** X21: tenants are compared by name alone.  [==] between tenants holds
    exactly when the names agree, so it is reflexive, symmetric and
    transitive, and tenants that differ in path or configuration but share
    a name are equal; a tenant equals its own name as a bare string; and
    equal tenants have equal hashes. *)
Theorem site_identity_is_its_name :
  (forall a b, Site_eq a (ASite b) = true <-> Site_name a = Site_name b)
  /\ (forall a name, Site_eq a (AStr name) = true <-> Site_name a = name)
  /\ (forall a, Site_eq a (AStr (Site_str a)) = true)
  /\ (forall a b c,
        Site_eq a (ASite b) = true -> Site_eq b (ASite c) = true ->
        Site_eq a (ASite c) = true /\ Site_eq b (ASite a) = true)
  /\ (forall hash a b,
        Site_eq a (ASite b) = true -> Site_hash hash a = Site_hash hash b)
  /\ (forall name p q,
        p <> q ->
        Site_init name p <> Site_init name q
        /\ Site_eq (Site_init name p) (ASite (Site_init name q)) = true).
Proof.
  unfold Site_eq, Site_hash, Site_str, str.
  split; [|split; [|split; [|split; [|split]]]].
  - intros a b. apply bool_decide_eq_true.
  - intros a name. apply bool_decide_eq_true.
  - intros a. by apply bool_decide_eq_true_2.
  - intros a b c Hab%bool_decide_eq_true Hbc%bool_decide_eq_true.
    unfold Site_str in *. split; apply bool_decide_eq_true_2; congruence.
  - intros hash a b Hab%bool_decide_eq_true. unfold Site_str in Hab. by rewrite Hab.
  - intros name p q Hpq. split.
    + intros Heq. by injection Heq.
    + by apply bool_decide_eq_true_2.
Qed.

Lemma site_identity_is_its_name_witness :
  Site_init "site1" ["a"] <> Site_init "site1" ["b"]
  /\ Site_eq (Site_init "site1" ["a"]) (ASite (Site_init "site1" ["b"])) = true
  /\ Site_eq (Site_init "site1" ["a"]) (AStr "site1") = true.
Proof.
  destruct site_identity_is_its_name as (_ & _ & Hstr & _ & _ & Hinit).
  destruct (Hinit "site1" ["a"] ["b"] ltac:(discriminate)) as [H1 H2].
  split; [exact H1|]. split; [exact H2|]. exact (Hstr (Site_init "site1" ["a"])).
Defined.

(** ** Path resolution *)

Lemma resolver_fails_iff
    (Path_of_str : string -> FS.path) (k : resolver_class) (path : option pathlike)
    (parent_path : option FS.path) (environ : gmap string string)
    (bench_folder : FS.path) :
  BenchPathResolver_init Path_of_str k path parent_path environ bench_folder = None
  <-> is_Bench k = false
      /\ pathlike_truthy path = false
      /\ pathlike_truthy
           (environ_get environ ("FRAPPE_" +:+ upper (class_name k) +:+ "_PATH"))
         = false
      /\ parent_path = None.
Proof.
  unfold BenchPathResolver_init, or_.
  set (e := environ_get environ ("FRAPPE_" +:+ upper (class_name k) +:+ "_PATH")).
  destruct (pathlike_truthy path) eqn:Hp.
  { rewrite Hp. cbn [negb andb]. destruct path as [v|]; [|done].
    split; [done|]. by intros (_ & ? & _). }
  destruct (pathlike_truthy e) eqn:He.
  { rewrite He. cbn [negb andb]. destruct e as [v|]; [|done].
    split; [done|]. by intros (_ & _ & ? & _). }
  destruct parent_path as [parent|].
  { cbn [pathlike_truthy negb andb]. split; [done|]. by intros (_ & _ & _ & ?). }
  cbn [pathlike_truthy negb andb]. destruct (is_Bench k).
  - destruct (pathlike_truthy (environ_get environ "FRAPPE_BENCH_ROOT")) eqn:Hr.
    + destruct (environ_get environ "FRAPPE_BENCH_ROOT"); [|done].
      split; [done|]. by intros [? _].
    + split; [done|]. by intros [? _].
  - done.
Qed.

(** X22: when path resolution fails.  [BenchPathResolver.__init__] raises
    [ValueError] exactly for an object other than a [Bench] that is given
    no path (or an empty one), finds no non-empty [FRAPPE_<CLASS>_PATH] in
    the environment and has no parent path; constructing a [Bench], with
    the four objects it owns, never raises it. *)
Theorem path_resolution_fails_without_any_source
    (Path_of_str : string -> FS.path) (k : resolver_class) (path : option pathlike)
    (parent_path : option FS.path) (environ : gmap string string)
    (bench_folder : FS.path) :
  (BenchPathResolver_init Path_of_str k path parent_path environ bench_folder = None
   <-> is_Bench k = false
       /\ pathlike_truthy path = false
       /\ pathlike_truthy
            (environ_get environ ("FRAPPE_" +:+ upper (class_name k) +:+ "_PATH"))
          = false
       /\ parent_path = None)
  /\ is_Some (Bench_init Path_of_str path environ bench_folder).
Proof.
  split; [apply resolver_fails_iff|].
  unfold Bench_init, Logs_init, Run_init.
  destruct (BenchPathResolver_init Path_of_str KBench path None environ bench_folder)
    as [self_path|] eqn:Hself;
    [|by apply resolver_fails_iff in Hself as [? _]].
  cbn [mbind option_bind].
  destruct (BenchPathResolver_init Path_of_str KLogs None (Some self_path) environ
              bench_folder) as [logs|] eqn:Hlogs;
    [|by apply resolver_fails_iff in Hlogs as (_ & _ & _ & ?)].
  cbn [mbind option_bind].
  destruct (BenchPathResolver_init Path_of_str KRun
              (or_ None (Some (PPath (FS.joinpath self_path "config"))))
              (Some self_path) environ bench_folder) as [run|] eqn:Hrun;
    [|by apply resolver_fails_iff in Hrun as (_ & _ & _ & ?)].
  cbn [mbind option_bind].
  destruct (BenchPathResolver_init Path_of_str KSites None (Some self_path) environ
              bench_folder) as [sites|] eqn:Hsites;
    [|by apply resolver_fails_iff in Hsites as (_ & _ & _ & ?)].
  cbn [mbind option_bind].
  destruct (BenchPathResolver_init Path_of_str KApps None (Some self_path) environ
              bench_folder) as [apps|] eqn:Happs;
    [|by apply resolver_fails_iff in Happs as (_ & _ & _ & ?)].
  by cbn.
Qed.

(** X23: the environment cannot move the run directory of a bench.
    [Run.__init__] passes [parent_path/config] to the resolver as if it
    were an explicit path, so with a parent path given [FRAPPE_RUN_PATH]
    is never consulted; the other classes do honour their variable, as
    [Logs] does with [FRAPPE_LOGS_PATH]. *)
Theorem run_directory_ignores_environment
    (Path_of_str : string -> FS.path) (parent : FS.path)
    (environ : gmap string string) (bench_folder : FS.path) :
  Run_init Path_of_str None (Some parent) environ bench_folder
  = Some (parent ++ ["config"])
  /\ (forall v,
        environ !! "FRAPPE_LOGS_PATH" = Some v -> v <> "" ->
        Logs_init Path_of_str None (Some parent) environ bench_folder
        = Some (Path_of_str v))
  /\ (forall v,
        environ !! "FRAPPE_RUN_PATH" = Some v -> v <> "" ->
        Run_init Path_of_str None None environ bench_folder = Some (Path_of_str v)).
Proof.
  split; [done|]. split.
  - intros v Hv Hne. unfold Logs_init, BenchPathResolver_init, or_, environ_get.
    change ("FRAPPE_" +:+ upper (class_name KLogs) +:+ "_PATH")
      with "FRAPPE_LOGS_PATH".
    rewrite Hv. cbn. rewrite (bool_decide_eq_false_2 (v = "")) by done.
    cbn. by rewrite ?andb_false_r.
  - intros v Hv Hne. unfold Run_init, BenchPathResolver_init, or_, environ_get.
    change ("FRAPPE_" +:+ upper (class_name KRun) +:+ "_PATH")
      with "FRAPPE_RUN_PATH".
    rewrite Hv. cbn. rewrite (bool_decide_eq_false_2 (v = "")) by done.
    cbn. by rewrite ?andb_false_r.
Qed.

Lemma run_directory_ignores_environment_witness :
  let environ : gmap string string :=
    <["FRAPPE_RUN_PATH" := "elsewhere"]> (<["FRAPPE_LOGS_PATH" := "var-log"]> ∅) in
  Run_init (fun s => [s]) None (Some ["bench"]) environ [] = Some ["bench"; "config"]
  /\ Logs_init (fun s => [s]) None (Some ["bench"]) environ [] = Some ["var-log"]
  /\ Run_init (fun s => [s]) None None environ [] = Some ["elsewhere"].
Proof.
  intros environ.
  destruct (run_directory_ignores_environment (fun s => [s]) ["bench"] environ [])
    as (H1 & H2 & H3).
  split; [exact H1|]. split.
  - exact (H2 "var-log" eq_refl ltac:(discriminate)).
  - exact (H3 "elsewhere" eq_refl ltac:(discriminate)).
Defined.

Lemma resolver_explicit (Path_of_str : string -> FS.path) k v parent_path environ
    bench_folder :
  pathlike_truthy (Some v) = true ->
  BenchPathResolver_init Path_of_str k (Some v) parent_path environ bench_folder
  = Some (Path_ Path_of_str v).
Proof. intros H. unfold BenchPathResolver_init, or_. by rewrite H, H. Qed.

Lemma resolver_child (Path_of_str : string -> FS.path) k parent environ bench_folder :
  pathlike_truthy
    (environ_get environ ("FRAPPE_" +:+ upper (class_name k) +:+ "_PATH")) = false ->
  BenchPathResolver_init Path_of_str k None (Some parent) environ bench_folder
  = Some (FS.joinpath parent (lower (class_name k))).
Proof. intros H. unfold BenchPathResolver_init, or_. cbn. by rewrite H. Qed.

(** X24: the default layout of a bench.  Given a path and an environment
    that sets none of [FRAPPE_LOGS_PATH], [FRAPPE_SITES_PATH] and
    [FRAPPE_APPS_PATH], [Bench.__init__] places its logs, run, sites and
    apps objects at [logs], [config], [sites] and [apps] directly below
    the bench path, whatever else the environment holds. *)
Theorem bench_default_layout
    (Path_of_str : string -> FS.path) (path : pathlike)
    (environ : gmap string string) (bench_folder : FS.path) :
  pathlike_truthy (Some path) = true ->
  pathlike_truthy (environ_get environ "FRAPPE_LOGS_PATH") = false ->
  pathlike_truthy (environ_get environ "FRAPPE_SITES_PATH") = false ->
  pathlike_truthy (environ_get environ "FRAPPE_APPS_PATH") = false ->
  let root := Path_ Path_of_str path in
  Bench_init Path_of_str (Some path) environ bench_folder
  = Some {| layout_bench := root;
            layout_logs := root ++ ["logs"];
            layout_run := root ++ ["config"];
            layout_sites := root ++ ["sites"];
            layout_apps := root ++ ["apps"] |}.
Proof.
  intros Hp Hlogs Hsites Happs root.
  unfold Bench_init, Logs_init, Run_init.
  rewrite (resolver_explicit Path_of_str KBench path None environ bench_folder Hp).
  cbn [mbind option_bind]. fold root.
  rewrite (resolver_child Path_of_str KLogs root environ bench_folder Hlogs).
  cbn [mbind option_bind].
  rewrite (resolver_explicit Path_of_str KRun (PPath (FS.joinpath root "config")))
    by done.
  cbn [mbind option_bind].
  rewrite (resolver_child Path_of_str KSites root environ bench_folder Hsites).
  cbn [mbind option_bind].
  rewrite (resolver_child Path_of_str KApps root environ bench_folder Happs).
  done.
Qed.

Lemma bench_default_layout_witness :
  Bench_init (fun s => [s]) (Some (PPath ["bench"]))
    (<["FRAPPE_RUN_PATH" := "elsewhere"]> ∅) []
  = Some {| layout_bench := ["bench"];
            layout_logs := ["bench"; "logs"];
            layout_run := ["bench"; "config"];
            layout_sites := ["bench"; "sites"];
            layout_apps := ["bench"; "apps"] |}.
Proof.
  exact (bench_default_layout (fun s => [s]) (PPath ["bench"])
           (<["FRAPPE_RUN_PATH" := "elsewhere"]> ∅) []
           eq_refl eq_refl eq_refl eq_refl).
Defined.

(** ** Indexing an app by module name *)

(** X25: [app[key]] returns the module built for the subdirectory [key]
    of the app's python path exactly when that subdirectory exists and is
    present (marker, or title-cased name found in [modules.txt]), and
    raises [KeyError] otherwise; the lookup scans the python path once.
    Stated for the keys of [is_ascii], on which [title] is [str.title()]. *)
Theorem modules_lookup_by_name (self : App) (w : World) text entries key :
  is_ascii key = true ->
  FS.read_text (fs w) (FS.joinpath (App_python_path self) "modules.txt") = Ret text ->
  FS.stat (fs w) (App_python_path self) = Ret (FS.Dir entries) ->
  exists self' w',
    let path := FS.joinpath (App_python_path self) key in
    App_getitem self key w
    = (if FS.is_dir (fs w) path
          && (has_marker (fs w) path || contains (title key) text)
       then Ret (self', Module_init key path self)
       else Raise KeyError,
       w')
    /\ scans w' = S (scans w).
Proof.
  intros _ Ht Hd. unfold App_getitem.
  destruct (App_modules_run self w text entries Ht Hd) as [ns Hrun].
  rewrite (bind_Ret _ _ _ _ _ Hrun). unfold Py.bind, module_dict. cbn.
  rewrite lookup_insert_eq. cbn.
  rewrite (lookup_fill_listing (fs w) (App_python_path self) entries _ _ key Hd);
    [|unfold keeps_module; by intros [? _]%andb_true_iff].
  exists {| App_name := App_name self; App_path := App_path self;
            App_python_path := App_python_path self;
            _App__modules := Some (next_loc w) |}.
  eexists. split.
  - unfold keeps_module.
    by destruct (FS.is_dir (fs w) (FS.joinpath (App_python_path self) key)
                 && (has_marker (fs w) (FS.joinpath (App_python_path self) key)
                     || contains (title key) text)).
  - reflexivity.
Qed.

Lemma modules_lookup_by_name_witness :
  (exists self' w',
      App_getitem sample_app "stock" sample_world
      = (Ret (self', Module_init "stock"
                       ["bench"; "apps"; "erpnext"; "erpnext"; "stock"] sample_app),
         w'))
  /\ (exists w', App_getitem sample_app "hr" sample_world = (Raise KeyError, w'))
  /\ (exists w', App_getitem sample_app "hooks.py" sample_world = (Raise KeyError, w')).
Proof.
  pose proof (fun key =>
    modules_lookup_by_name sample_app sample_world "Stock Entry"
      (list_to_map
         [(".frappe", FS.File "");
          ("modules.txt", FS.File "Stock Entry");
          ("hooks.py", FS.File "");
          ("stock", dir [(".frappe", FS.File "")]);
          ("stock_entry", dir []);
          ("entry", dir []);
          ("hr", dir [])])
      key) as H.
  split; [|split].
  - destruct (H "stock" eq_refl eq_refl eq_refl) as (self' & w' & Hrun & _).
    exists self', w'. exact Hrun.
  - destruct (H "hr" eq_refl eq_refl eq_refl) as (self' & w' & Hrun & _).
    exists w'. exact Hrun.
  - destruct (H "hooks.py" eq_refl eq_refl eq_refl) as (self' & w' & Hrun & _).
    exists w'. exact Hrun.
Defined.

(** ** The mapping attribute before and after the first read *)

(** X26: every read of [_sites] leaves the registry with a mapping, also
    when the read fails; so [remove_site], which raises [AttributeError]
    and changes nothing on a registry without mapping, returns once
    [len(sites)] has been evaluated.  Where the identifier is absent, empty
    or a single path component, the mapping it then edits is the one that
    [len] has just built from the disk. *)
Theorem first_read_creates_the_mapping (s : State) n :
  is_Some (_Sites__sites (self_ (_sites s).2))
  /\ is_Some (_Sites__sites (self_ (Sites_len s).2))
  /\ (_Sites__sites (self_ s) = None -> remove_site n s = (Raise AttributeError, s))
  /\ (forall k s1,
        Sites_len s = (Ret k, s1) -> exists s2, remove_site n s1 = (Ret tt, s2))
  /\ ((forall i, frappe_local_site_name s = Some i -> i <> "" ->
                 single_component i = true) ->
      (Sites_len;;; remove_site n) s
      = match visible_sites s with
        | Ret d => (Ret tt, with_sites (Some (delete n d)) s)
        | Raise e => (Raise e, with_sites (Some ∅) s)
        end).
Proof.
  assert (Sites_len s = match visible_sites s with
                        | Ret d => (Ret (size d), with_sites (Some d) s)
                        | Raise e => (Raise e, with_sites (Some ∅) s)
                        end) as Hlen.
  { unfold Sites_len, Py.bind. rewrite _sites_run. by destruct (visible_sites s). }
  split; [|split; [|split; [|split]]].
  - rewrite _sites_run. by destruct (visible_sites s).
  - rewrite Hlen. by destruct (visible_sites s).
  - intros H. unfold remove_site, Py.bind, get__sites. by rewrite H.
  - intros k s1. rewrite Hlen. destruct (visible_sites s) as [d|e]; [|done].
    intros [= _ <-]. unfold remove_site, Py.bind, get__sites. cbn.
    destruct (d !! n); by eexists.
  - intros _. unfold Py.bind at 1. rewrite Hlen.
    destruct (visible_sites s) as [d|e]; [|done].
    unfold remove_site, Py.bind, get__sites. cbn.
    destruct (d !! n) eqn:Hn; [done|]. by rewrite delete_id.
Qed.

Lemma first_read_creates_the_mapping_witness :
  remove_site "site1" sample_registry = (Raise AttributeError, sample_registry)
  /\ ((Sites_len;;; remove_site "site1") sample_registry).1 = Ret tt.
Proof.
  destruct (first_read_creates_the_mapping sample_registry "site1")
    as (_ & _ & H3 & _ & H5).
  split; [exact (H3 eq_refl)|].
  rewrite (H5 ltac:(intros i Hi; discriminate Hi)). reflexivity.
Defined.
